(** * Repository assistant: question answering over repository metadata

    A shallow embedding of [implementation.js]: the question classifier,
    the three answer generators, the suggestion generator and the
    orchestrating entry point, together with the properties the
    specification states about them.

    Conventions of the embedding.
    - A JavaScript string is a sequence of UTF-16 code units; the embedding
      covers the code units U+0000..U+00FF, one [ascii] each, so that
      [toLowerCase], [includes], [join] and the [/[^\w\s]/g] replacement
      are the source's on every such string.
    - A possibly absent string field ([description], [homepage],
      [language], [context], [githubToken]) is a [JsValue]: [undefined],
      [null] or a string.
    - Counters of the upstream payload are natural numbers ([N]).
    - An [async] function is a computation over the log of the upstream
      calls issued so far, which either resolves to a value or rejects
      with an error carrying a message. *)

From Stdlib Require Import List Bool Arith Ascii String NArith Lia.
From Stdlib Require Import Numbers.DecimalString.
Import ListNotations.

Open Scope list_scope.
Open Scope string_scope.

(* ------------------------------------------------------------------ *)
(** ** Strings of the host language *)

Module JsString.

(** [String.prototype.toLowerCase] on one code unit below U+0100:
    [A-Z] and the Latin-1 capitals U+00C0..U+00DE (U+00D7, the
    multiplication sign, apart) move up by 32. *)
Definition lowerUnit (c : ascii) : ascii :=
  let n := N_of_ascii c in
  if ((65 <=? n) && (n <=? 90)
      || (192 <=? n) && (n <=? 222) && negb (n =? 215))%N
  then ascii_of_N (n + 32)
  else c.

Fixpoint toLowerCase (s : string) : string :=
  match s with
  | EmptyString => EmptyString
  | String c s' => String (lowerUnit c) (toLowerCase s')
  end.

(** [s.startsWith(k)]. *)
Fixpoint startsWith (s k : string) : bool :=
  match k, s with
  | EmptyString, _ => true
  | String _ _, EmptyString => false
  | String a k', String b s' => Ascii.eqb a b && startsWith s' k'
  end.

(** [s.includes(k)]: the search string is tried at every position. *)
Fixpoint includes (s k : string) : bool :=
  if startsWith s k then true
  else match s with
       | EmptyString => false
       | String _ s' => includes s' k
       end.

(** [xs.join(sep)] on an array of strings. *)
Fixpoint join (sep : string) (xs : list string) : string :=
  match xs with
  | [] => ""
  | [x] => x
  | x :: rest => x ++ sep ++ join sep rest
  end.

(** [\w] of a regular expression without the [u] and [i] flags. *)
Definition isWordUnit (c : ascii) : bool :=
  let n := N_of_ascii c in
  ((48 <=? n) && (n <=? 57) || (65 <=? n) && (n <=? 90)
   || (97 <=? n) && (n <=? 122) || (n =? 95))%N.

(** [\s]: tab, line feed, vertical tab, form feed, carriage return,
    space and, below U+0100, the no-break space. *)
Definition isSpaceUnit (c : ascii) : bool :=
  let n := N_of_ascii c in
  ((9 <=? n) && (n <=? 13) || (n =? 32) || (n =? 160))%N.

(** [s.replace(/[^\w\s]/g, ' ')]. *)
Fixpoint stripPunctuation (s : string) : string :=
  match s with
  | EmptyString => EmptyString
  | String c s' =>
      String (if isWordUnit c || isSpaceUnit c then c else " "%char)
             (stripPunctuation s')
  end.

(** A number of the payload interpolated into a template literal: the
    counters are integers far below 1e21, which print in plain decimal. *)
Definition ofNumber (n : N) : string :=
  NilZero.string_of_uint (N.to_uint n).

(** The relation the executable [includes] decides. *)
Definition occursIn (k s : string) : Prop :=
  exists pre post, s = pre ++ k ++ post.

End JsString.

Import JsString.

(* ------------------------------------------------------------------ *)
(** ** Values that may be absent *)

Inductive JsValue : Type :=
| JsUndefined
| JsNull
| JsStr (s : string).

(** Truthiness: [undefined], [null] and the empty string are falsy. *)
Definition truthy (v : JsValue) : bool :=
  match v with
  | JsStr EmptyString => false
  | JsStr _ => true
  | _ => false
  end.

(** The string a template literal renders for a value. *)
Definition render (v : JsValue) : string :=
  match v with
  | JsUndefined => "undefined"
  | JsNull => "null"
  | JsStr s => s
  end.

(** [a || b]. *)
Definition jsOr (a b : JsValue) : JsValue :=
  if truthy a then a else b.

(* ------------------------------------------------------------------ *)
(** ** Question classifier *)

Definition technicalKeywords : list string :=
  ["how"; "implement"; "code"; "function"; "class"; "method"].

Definition statisticsKeywords : list string :=
  ["many"; "count"; "size"; "number"; "statistics"].

(** [analyzeQuestionType]: the result is the name of the question type,
    as in the source. *)
Definition analyzeQuestionType (question : string) : string :=
  let question := toLowerCase question in
  if existsb (fun keyword => includes question keyword) technicalKeywords
  then "technical"
  else if existsb (fun keyword => includes question keyword) statisticsKeywords
  then "statistics"
  else "general".

(* ------------------------------------------------------------------ *)
(** ** Data model *)

(** Payloads of the upstream API, with the fields the program reads. *)
Module Upstream.

(** [repos.get]. *)
Record Repo : Type := {
  description : JsValue;
  homepage : JsValue;
  language : JsValue;
  size : N;
  stargazers_count : N;
  forks_count : N;
  open_issues_count : N;
  created_at : string;
  updated_at : string;
  full_name : string;
  has_pages : bool
}.

(** [repos.listLanguages]: an object from language name to byte count;
    its keys are enumerated in insertion order. *)
Definition Languages : Type := list (string * N).

(** [repos.getAllTopics]. *)
Record Topics : Type := { names : list string }.

(** One hit of [search.code], and the page of hits. *)
Record SearchItem : Type := {
  name : string;
  path : string;
  html_url : string
}.

Record SearchResults : Type := { items : list SearchItem }.

End Upstream.

(** The merged object [getRepositoryInfo] returns. *)
Record RepositoryInfo : Type := {
  description : JsValue;
  homepage : JsValue;
  language : JsValue;
  size : N;
  stargazers_count : N;
  forks_count : N;
  open_issues_count : N;
  created_at : string;
  updated_at : string;
  full_name : string;
  has_pages : bool;
  languages : Upstream.Languages;
  topics : list string
}.

(** [Object.keys(repoInfo.languages)]. *)
Definition Object_keys (o : Upstream.Languages) : list string :=
  map fst o.

Record File : Type := {
  name : string;
  path : string;
  url : string
}.

Record Answer : Type := {
  text : string;
  relatedFiles : list File;
  suggestions : list string
}.

Definition set_text (a : Answer) (t : string) : Answer :=
  {| text := t; relatedFiles := relatedFiles a; suggestions := suggestions a |}.

Definition set_relatedFiles (a : Answer) (fs : list File) : Answer :=
  {| text := text a; relatedFiles := fs; suggestions := suggestions a |}.

Definition set_suggestions (a : Answer) (ss : list string) : Answer :=
  {| text := text a; relatedFiles := relatedFiles a; suggestions := ss |}.

(* ------------------------------------------------------------------ *)
(** ** Asynchronous computations over the upstream API *)

(** The requests the program can issue. *)
Inductive Request : Type :=
| ReposGet (owner repo : string)
| ReposListLanguages (owner repo : string)
| ReposGetAllTopics (owner repo : string)
| SearchCode (q : string) (per_page : N).

Record JsError : Type := { message : string }.

Inductive Settled (A : Type) : Type :=
| Fulfilled (a : A)
| Rejected (e : JsError).

Arguments Fulfilled {A} a.
Arguments Rejected {A} e.

(** A computation takes the log of requests issued so far and settles,
    returning the extended log. *)
Definition Async (A : Type) : Type :=
  list Request -> Settled A * list Request.

Definition ret {A} (a : A) : Async A :=
  fun log => (Fulfilled a, log).

Definition throw {A} (e : JsError) : Async A :=
  fun log => (Rejected e, log).

Definition bind {A B} (m : Async A) (k : A -> Async B) : Async B :=
  fun log =>
    match m log with
    | (Fulfilled a, log') => k a log'
    | (Rejected e, log') => (Rejected e, log')
    end.

(** [try { m } catch (error) { handler(error) }]. *)
Definition tryCatch {A} (m : Async A) (handler : JsError -> Async A) : Async A :=
  fun log =>
    match m log with
    | (Fulfilled a, log') => (Fulfilled a, log')
    | (Rejected e, log') => handler e log'
    end.

(** Awaiting one request: it is logged, then settles as upstream says. *)
Definition await {A} (r : Request) (response : Settled A) : Async A :=
  fun log => (response, (log ++ [r])%list).

Declare Scope async_scope.
Delimit Scope async_scope with async.
Notation "x <- m ;; k" := (bind m (fun x => k))
  (at level 61, m at next level, right associativity) : async_scope.
Notation "' pat <- m ;; k" := (bind m (fun x => match x with pat => k end))
  (at level 61, pat pattern, m at next level, right associativity) : async_scope.

(** Unfolds the plumbing of [Async] in the goal and the hypotheses. *)
Ltac run_async :=
  unfold bind, await, ret, throw, tryCatch in *; cbn beta iota in *.

(** The API client: how each endpoint settles for the client's
    credential. *)
Record Octokit : Type := {
  repos_get : string -> string -> Settled Upstream.Repo;
  repos_listLanguages : string -> string -> Settled Upstream.Languages;
  repos_getAllTopics : string -> string -> Settled Upstream.Topics;
  search_code : string -> N -> Settled Upstream.SearchResults
}.

(* ------------------------------------------------------------------ *)
(** ** The program *)

Local Open Scope async_scope.

(** [getRepositoryInfo]: three requests, one after the other, merged. *)
Definition getRepositoryInfo (octokit : Octokit) (owner repo : string)
  : Async RepositoryInfo :=
  repoData <- await (ReposGet owner repo) (repos_get octokit owner repo) ;;
  languages <- await (ReposListLanguages owner repo)
                     (repos_listLanguages octokit owner repo) ;;
  topics <- await (ReposGetAllTopics owner repo)
                  (repos_getAllTopics octokit owner repo) ;;
  ret {| description := Upstream.description repoData;
         homepage := Upstream.homepage repoData;
         language := Upstream.language repoData;
         size := Upstream.size repoData;
         stargazers_count := Upstream.stargazers_count repoData;
         forks_count := Upstream.forks_count repoData;
         open_issues_count := Upstream.open_issues_count repoData;
         created_at := Upstream.created_at repoData;
         updated_at := Upstream.updated_at repoData;
         full_name := Upstream.full_name repoData;
         has_pages := Upstream.has_pages repoData;
         languages := languages;
         topics := Upstream.names topics |}.

(** [generateGeneralAnswer]. *)
Definition generateGeneralAnswer (repoInfo : RepositoryInfo) (question : string)
  : string :=
  if includes question "about" then
    "This repository is "
      ++ render (jsOr (description repoInfo) (JsStr "a project"))
      ++ " written primarily in " ++ render (language repoInfo) ++ ". "
      ++ (if truthy (homepage repoInfo)
          then "You can find more information at "
                 ++ render (homepage repoInfo) ++ "."
          else "")
      ++ " "
      ++ (if (0 <? List.length (topics repoInfo))%nat
          then "It's tagged with the following topics: "
                 ++ join ", " (topics repoInfo) ++ "."
          else "")
  else
    "I found some general information about the repository: "
      ++ render (description repoInfo).

Definition toFile (item : Upstream.SearchItem) : File :=
  {| name := Upstream.name item;
     path := Upstream.path item;
     url := Upstream.html_url item |}.

Definition fileLine (f : File) : string :=
  "- " ++ path f ++ " (" ++ url f ++ ")".

Definition newline : string := String (ascii_of_N 10) "".

(** [findTechnicalAnswer]. *)
Definition findTechnicalAnswer (octokit : Octokit) (repoInfo : RepositoryInfo)
    (question : string) : Async (string * list File) :=
  let q := stripPunctuation question ++ " repo:" ++ full_name repoInfo in
  searchResults <- await (SearchCode q 5) (search_code octokit q 5) ;;
  let files := map toFile (Upstream.items searchResults) in
  let text :=
    if (0 <? List.length files)%nat
    then "I found some relevant files that might help answer your question:"
           ++ newline ++ newline ++ join newline (map fileLine files)
    else "I could not find any relevant code files for your technical question."
  in
  ret (text, files).

Module Stats.
Record t : Type := {
  size : N;
  stars : N;
  forks : N;
  issues : N;
  languages : nat;
  created : string;
  updated : string
}.
End Stats.

(** [array.push(x)]. *)
Definition push {A} (xs : list A) (x : A) : list A := (xs ++ [x])%list.

(** [generateSuggestions]: the array is extended one test at a time. *)
Definition generateSuggestions (repoInfo : RepositoryInfo) (question : string)
    (context : JsValue) : list string :=
  let suggestions := [] in
  let suggestions :=
    if negb (truthy (description repoInfo))
    then push suggestions
           "Add a repository description to help users understand the project better"
    else suggestions in
  let suggestions :=
    if negb (truthy (homepage repoInfo)) && negb (has_pages repoInfo)
    then push suggestions "Consider adding a homepage or enabling GitHub Pages"
    else suggestions in
  let suggestions :=
    if (List.length (topics repoInfo) =? 0)%nat
    then push suggestions "Add repository topics to improve discoverability"
    else suggestions in
  let suggestions :=
    if (20 <? open_issues_count repoInfo)%N
    then push suggestions
           "Consider addressing some open issues to improve repository health"
    else suggestions in
  suggestions.

Section Host.

(** [new Date(s).toLocaleDateString()], which depends on the host's
    locale and time zone. *)
Variable toLocaleDateString : string -> string.

(** [new Octokit({ auth })]: the client for a credential. *)
Variable newOctokit : JsValue -> Octokit.

(** [generateStatisticsAnswer]. *)
Definition generateStatisticsAnswer (repoInfo : RepositoryInfo)
    (question : string) : string :=
  let stats :=
    {| Stats.size := size repoInfo;
       Stats.stars := stargazers_count repoInfo;
       Stats.forks := forks_count repoInfo;
       Stats.issues := open_issues_count repoInfo;
       Stats.languages := List.length (Object_keys (languages repoInfo));
       Stats.created := toLocaleDateString (created_at repoInfo);
       Stats.updated := toLocaleDateString (updated_at repoInfo) |} in
  if includes question "language" then
    "The repository uses " ++ ofNumber (N.of_nat (Stats.languages stats))
      ++ " languages: " ++ join ", " (Object_keys (languages repoInfo))
  else if includes question "popular" || includes question "stars" then
    "The repository has " ++ ofNumber (Stats.stars stats) ++ " stars and "
      ++ ofNumber (Stats.forks stats) ++ " forks"
  else if includes question "issue" then
    "There are currently " ++ ofNumber (Stats.issues stats) ++ " open issues"
  else
    "Repository statistics:" ++ newline
      ++ "- Size: " ++ ofNumber (Stats.size stats) ++ "KB" ++ newline
      ++ "- Stars: " ++ ofNumber (Stats.stars stats) ++ newline
      ++ "- Forks: " ++ ofNumber (Stats.forks stats) ++ newline
      ++ "- Open Issues: " ++ ofNumber (Stats.issues stats) ++ newline
      ++ "- Created: " ++ Stats.created stats ++ newline
      ++ "- Last Updated: " ++ Stats.updated stats.

(** [generateAnswer]: the [switch] compares the classifier's result with
    each label in turn and has a default. *)
Definition generateAnswer (octokit : Octokit) (repoInfo : RepositoryInfo)
    (question : string) (context : JsValue) : Async Answer :=
  let answer := {| text := ""; relatedFiles := []; suggestions := [] |} in
  let questionType := analyzeQuestionType question in
  answer <-
    (if questionType =? "general" then
       ret (set_text answer (generateGeneralAnswer repoInfo question))
     else if questionType =? "technical" then
       '(text, files) <- findTechnicalAnswer octokit repoInfo question ;;
       ret (set_relatedFiles (set_text answer text) files)
     else if questionType =? "statistics" then
       ret (set_text answer (generateStatisticsAnswer repoInfo question))
     else
       ret (set_text answer
              "I apologize, but I cannot understand the question type.")) ;;
  let answer :=
    if truthy context
    then set_suggestions answer (generateSuggestions repoInfo question context)
    else answer in
  ret answer.

(** The parameters and the user settings of the entry point. *)
Record Params : Type := {
  owner : string;
  repo : string;
  question : string;
  context : JsValue
}.

Record UserSettings : Type := { githubToken : JsValue }.

(** [answer_repository_question]: the credential test is outside the
    [try], the rest inside. *)
Definition answer_repository_question (params : Params)
    (userSettings : UserSettings) : Async Answer :=
  if negb (truthy (githubToken userSettings)) then
    throw {| message := "GitHub token is required" |}
  else
    tryCatch
      (let octokit := newOctokit (githubToken userSettings) in
       repoInfo <- getRepositoryInfo octokit (owner params) (repo params) ;;
       answer <- generateAnswer octokit repoInfo (question params)
                   (context params) ;;
       ret answer)
      (fun error =>
         throw {| message := "Failed to answer question: " ++ message error |}).

End Host.

(* ------------------------------------------------------------------ *)
(** ** Sample data for the closed examples *)

Module Sample.

Definition info : RepositoryInfo :=
  {| description := JsStr "A test tool";
     homepage := JsNull;
     language := JsStr "Go";
     size := 120;
     stargazers_count := 42;
     forks_count := 7;
     open_issues_count := 3;
     created_at := "2020-01-01T00:00:00Z";
     updated_at := "2021-06-01T00:00:00Z";
     full_name := "octo/tool";
     has_pages := false;
     languages := [("Go", 2048%N); ("Shell", 16%N)];
     topics := [] |}.

Definition repoData : Upstream.Repo :=
  {| Upstream.description := JsStr "A test tool";
     Upstream.homepage := JsNull;
     Upstream.language := JsStr "Go";
     Upstream.size := 120;
     Upstream.stargazers_count := 42;
     Upstream.forks_count := 7;
     Upstream.open_issues_count := 3;
     Upstream.created_at := "2020-01-01T00:00:00Z";
     Upstream.updated_at := "2021-06-01T00:00:00Z";
     Upstream.full_name := "octo/tool";
     Upstream.has_pages := false |}.

Definition hit : Upstream.SearchItem :=
  {| Upstream.name := "main.go";
     Upstream.path := "cmd/main.go";
     Upstream.html_url := "https://example.org/octo/tool/cmd/main.go" |}.

(** An upstream where every request succeeds and the search has one hit. *)
Definition healthy (_ : JsValue) : Octokit :=
  {| repos_get := fun _ _ => Fulfilled repoData;
     repos_listLanguages :=
       fun _ _ => Fulfilled [("Go", 2048%N); ("Shell", 16%N)];
     repos_getAllTopics := fun _ _ => Fulfilled {| Upstream.names := [] |};
     search_code := fun _ _ => Fulfilled {| Upstream.items := [hit] |} |}.

(** An upstream that does not know the repository. *)
Definition notFound (_ : JsValue) : Octokit :=
  {| repos_get := fun _ _ => Rejected {| message := "Not Found" |};
     repos_listLanguages := fun _ _ => Rejected {| message := "Not Found" |};
     repos_getAllTopics := fun _ _ => Rejected {| message := "Not Found" |};
     search_code := fun _ _ => Rejected {| message := "Not Found" |} |}.

(** An upstream whose code search is rate limited. *)
Definition searchLimited (_ : JsValue) : Octokit :=
  {| repos_get := fun _ _ => Fulfilled repoData;
     repos_listLanguages :=
       fun _ _ => Fulfilled [("Go", 2048%N); ("Shell", 16%N)];
     repos_getAllTopics := fun _ _ => Fulfilled {| Upstream.names := [] |};
     search_code :=
       fun _ _ => Rejected {| message := "API rate limit exceeded" |} |}.

(** The identity stands in for the host's date formatting. *)
Definition isoDate (s : string) : string := s.

Definition settings : UserSettings := {| githubToken := JsStr "ghp_token" |}.

End Sample.

(* ------------------------------------------------------------------ *)
(** ** The sentences of the statistics answer, and the specification's
       reading of its dispatch *)

Definition languageSentence (info : RepositoryInfo) : string :=
  "The repository uses "
    ++ ofNumber (N.of_nat (List.length (Object_keys (languages info))))
    ++ " languages: " ++ join ", " (Object_keys (languages info)).

Definition starsForksSentence (info : RepositoryInfo) : string :=
  "The repository has " ++ ofNumber (stargazers_count info) ++ " stars and "
    ++ ofNumber (forks_count info) ++ " forks".

Definition openIssuesSentence (info : RepositoryInfo) : string :=
  "There are currently " ++ ofNumber (open_issues_count info) ++ " open issues".

Definition snapshot (toLocaleDateString : string -> string)
    (info : RepositoryInfo) : string :=
  "Repository statistics:" ++ newline
    ++ "- Size: " ++ ofNumber (size info) ++ "KB" ++ newline
    ++ "- Stars: " ++ ofNumber (stargazers_count info) ++ newline
    ++ "- Forks: " ++ ofNumber (forks_count info) ++ newline
    ++ "- Open Issues: " ++ ofNumber (open_issues_count info) ++ newline
    ++ "- Created: " ++ toLocaleDateString (created_at info) ++ newline
    ++ "- Last Updated: " ++ toLocaleDateString (updated_at info).

(** The dispatch as the specification words it: a substring test on the
    lower-cased question, first match wins. *)
Definition generateStatistics_spec (toLocaleDateString : string -> string)
    (info : RepositoryInfo) (question : string) : string :=
  let lowered := toLowerCase question in
  if includes lowered "language" then languageSentence info
  else if includes lowered "popular" || includes lowered "stars"
  then starsForksSentence info
  else if includes lowered "issue" then openIssuesSentence info
  else snapshot toLocaleDateString info.

(** The four advisories of the suggestion generator, each with its test,
    in the order of the source. *)
Definition advisories (info : RepositoryInfo) : list (bool * string) :=
  [ (negb (truthy (description info)),
     "Add a repository description to help users understand the project better");
    (negb (truthy (homepage info)) && negb (has_pages info),
     "Consider adding a homepage or enabling GitHub Pages");
    ((List.length (topics info) =? 0)%nat,
     "Add repository topics to improve discoverability");
    ((20 <? open_issues_count info)%N,
     "Consider addressing some open issues to improve repository health") ].

(* ------------------------------------------------------------------ *)
(** ** The clauses of the general answer *)

Definition homepageClause (info : RepositoryInfo) : string :=
  if truthy (homepage info)
  then "You can find more information at " ++ render (homepage info) ++ "."
  else "".

Definition topicsClause (info : RepositoryInfo) : string :=
  match topics info with
  | [] => ""
  | _ :: _ =>
      "It's tagged with the following topics: "
        ++ join ", " (topics info) ++ "."
  end.

Definition aboutSentence (info : RepositoryInfo) : string :=
  "This repository is "
    ++ render (jsOr (description info) (JsStr "a project"))
    ++ " written primarily in " ++ render (language info) ++ ". "
    ++ homepageClause info ++ " " ++ topicsClause info.

Definition plainSentence (info : RepositoryInfo) : string :=
  "I found some general information about the repository: "
    ++ render (description info).

(* ------------------------------------------------------------------ *)
(** ** Upstream failures *)

(** One of the three requests of the repository fetch is rejected with
    [e], the earlier ones having succeeded. *)
Definition fetchRejects (octokit : Octokit) (owner repo : string)
    (e : JsError) : Prop :=
  repos_get octokit owner repo = Rejected e
  \/ (exists d, repos_get octokit owner repo = Fulfilled d
       /\ repos_listLanguages octokit owner repo = Rejected e)
  \/ (exists d l, repos_get octokit owner repo = Fulfilled d
       /\ repos_listLanguages octokit owner repo = Fulfilled l
       /\ repos_getAllTopics octokit owner repo = Rejected e).

(** The query of the code search for a question. *)
Definition searchQuery (info : RepositoryInfo) (question : string) : string :=
  stripPunctuation question ++ " repo:" ++ full_name info.

(** What [generateAnswer] stores as suggestions. *)
Definition suggestionsFor (info : RepositoryInfo) (question : string)
    (context : JsValue) : list string :=
  if truthy context then generateSuggestions info question context else [].

(* ------------------------------------------------------------------ *)
(** ** Vocabulary of the further properties *)

(** The requests of the repository fetch, in the order of the source. *)
Definition fetchRequests (owner repo : string) : list Request :=
  [ReposGet owner repo; ReposListLanguages owner repo;
   ReposGetAllTopics owner repo].

(** The code units of a string. *)
Definition unitsOf (s : string) : list ascii := list_ascii_of_string s.

(** A code unit the [/[^\w\s]/g] replacement rewrites. *)
Definition isPunctuation (c : ascii) : bool :=
  negb (isWordUnit c || isSpaceUnit c).

(** The two texts of the technical answer. *)
Definition foundText (files : list File) : string :=
  "I found some relevant files that might help answer your question:"
    ++ newline ++ newline ++ join newline (map fileLine files).

Definition notFoundText : string :=
  "I could not find any relevant code files for your technical question.".

(* ------------------------------------------------------------------ *)
(** ** Substring search *)

Lemma startsWith_iff (s k : string) :
  startsWith s k = true <-> exists post, s = k ++ post.
Proof.
  revert s; induction k as [|a k IH]; intros s; simpl.
  - split; [intros _; exists s; reflexivity | destruct s; reflexivity].
  - destruct s as [|b s]; simpl.
    + split; [discriminate | intros [post H]; discriminate].
    + rewrite andb_true_iff, Ascii.eqb_eq, IH. split.
      * intros [-> [post ->]]. exists post; reflexivity.
      * intros [post H]. injection H as -> ->. split; [reflexivity | eauto].
Qed.

Lemma includes_unfold (s k : string) :
  includes s k =
  if startsWith s k then true
  else match s with
       | EmptyString => false
       | String _ s' => includes s' k
       end.
Proof. destruct s; reflexivity. Qed.

Lemma includes_iff (s k : string) :
  includes s k = true <-> occursIn k s.
Proof.
  unfold occursIn. induction s as [|c s IH]; rewrite includes_unfold.
  - destruct (startsWith "" k) eqn:E.
    + apply startsWith_iff in E as [post E].
      split; [intros _; exists "", post; exact E | reflexivity].
    + split; [discriminate|]. intros [pre [post H]].
      destruct pre; [|discriminate]. simpl in H.
      assert (startsWith "" k = true) by (apply startsWith_iff; eauto).
      congruence.
  - destruct (startsWith (String c s) k) eqn:E.
    + apply startsWith_iff in E as [post E].
      split; [intros _; exists "", post; exact E | reflexivity].
    + rewrite IH. split.
      * intros [pre [post ->]]. exists (String c pre), post. reflexivity.
      * intros [pre [post H]]. destruct pre as [|c' pre]; simpl in H.
        -- assert (startsWith (String c s) k = true)
             by (apply startsWith_iff; eauto).
           congruence.
        -- injection H as _ ->. eauto.
Qed.

Lemma includes_false_iff (s k : string) :
  includes s k = false <-> ~ occursIn k s.
Proof.
  rewrite <- includes_iff. destruct (includes s k); split; intros; congruence.
Qed.

Lemma existsb_includes (s : string) (ks : list string) :
  existsb (fun keyword => includes s keyword) ks = true
  <-> exists k, In k ks /\ occursIn k s.
Proof.
  rewrite existsb_exists. split; intros [k [Hin H]]; exists k;
    (split; [exact Hin | apply includes_iff; exact H]).
Qed.

(* ------------------------------------------------------------------ *)
(** ** Classification *)

(** C1. The classifier lower-cases the question; it answers [technical]
    when one of how, implement, code, function, class, method occurs in
    the lower-cased question, also when a statistics keyword occurs too;
    otherwise [statistics] when one of many, count, size, number,
    statistics occurs; otherwise [general]. The result is always one of
    these three names. *)
Theorem analyzeQuestionType_classifies (question : string) :
  let q := toLowerCase question in
  let technical :=
    exists k, In k ["how"; "implement"; "code"; "function"; "class"; "method"]
              /\ occursIn k q in
  let statistics :=
    exists k, In k ["many"; "count"; "size"; "number"; "statistics"]
              /\ occursIn k q in
  (technical -> analyzeQuestionType question = "technical")
  /\ (~ technical -> statistics -> analyzeQuestionType question = "statistics")
  /\ (~ technical -> ~ statistics -> analyzeQuestionType question = "general")
  /\ (analyzeQuestionType question = "technical"
      \/ analyzeQuestionType question = "statistics"
      \/ analyzeQuestionType question = "general").
Proof.
  intros q technical statistics.
  unfold analyzeQuestionType. fold q.
  pose proof (existsb_includes q technicalKeywords) as Ht.
  pose proof (existsb_includes q statisticsKeywords) as Hs.
  fold technical in Ht. fold statistics in Hs.
  destruct (existsb _ technicalKeywords);
    destruct (existsb _ statisticsKeywords);
    repeat split; intros; auto;
    try (exfalso; intuition congruence).
Qed.

(** A question with a keyword of each set is [technical]. *)
Lemma analyzeQuestionType_classifies_witness :
  analyzeQuestionType "How MANY Classes are there?" = "technical".
Proof.
  refine (proj1 (analyzeQuestionType_classifies "How MANY Classes are there?") _).
  exists "how". split; [simpl; auto|].
  exists "", " many classes are there?". reflexivity.
Defined.

(* ------------------------------------------------------------------ *)
(** ** Statistics answers *)

Lemma orb_includes (s a b : string) :
  includes s a || includes s b = true <-> occursIn a s \/ occursIn b s.
Proof. rewrite orb_true_iff, !includes_iff. reflexivity. Qed.

(** C2, as the code has it. The statistics generator tests the question
    it is given, without lower-casing it, so the tests are case-sensitive;
    the first match wins: "language" gives the language-count sentence,
    else "popular" or "stars" the stars/forks sentence, else "issue" the
    open-issue sentence, else the six-line snapshot. *)
Theorem generateStatisticsAnswer_dispatch
    (toLocaleDateString : string -> string) (info : RepositoryInfo)
    (question : string) :
  (occursIn "language" question ->
   generateStatisticsAnswer toLocaleDateString info question
   = languageSentence info)
  /\ (~ occursIn "language" question ->
      occursIn "popular" question \/ occursIn "stars" question ->
      generateStatisticsAnswer toLocaleDateString info question
      = starsForksSentence info)
  /\ (~ occursIn "language" question ->
      ~ (occursIn "popular" question \/ occursIn "stars" question) ->
      occursIn "issue" question ->
      generateStatisticsAnswer toLocaleDateString info question
      = openIssuesSentence info)
  /\ (~ occursIn "language" question ->
      ~ (occursIn "popular" question \/ occursIn "stars" question) ->
      ~ occursIn "issue" question ->
      generateStatisticsAnswer toLocaleDateString info question
      = snapshot toLocaleDateString info).
Proof.
  unfold generateStatisticsAnswer; cbn [Stats.languages Stats.stars Stats.forks
    Stats.issues Stats.size Stats.created Stats.updated].
  pose proof (includes_iff question "language") as Hl.
  pose proof (orb_includes question "popular" "stars") as Hp.
  pose proof (includes_iff question "issue") as Hi.
  destruct (includes question "language");
    destruct (includes question "popular" || includes question "stars");
    destruct (includes question "issue");
    repeat split; intros; try reflexivity; exfalso; intuition congruence.
Qed.

Lemma generateStatisticsAnswer_dispatch_witness :
  generateStatisticsAnswer Sample.isoDate Sample.info "Count the stars"
  = "The repository has 42 stars and 7 forks".
Proof.
  refine (proj1 (proj2 (generateStatisticsAnswer_dispatch
                          Sample.isoDate Sample.info "Count the stars")) _ _).
  - apply includes_false_iff. reflexivity.
  - right. apply includes_iff. reflexivity.
Defined.

(** C2, as the specification words it, fails: on "Count the STARS" the
    lower-cased question contains "stars" and not "language", yet the
    code answers with the snapshot, not with the stars/forks sentence. *)
Lemma generateStatisticsAnswer_case_sensitive :
  occursIn "stars" (toLowerCase "Count the STARS")
  /\ ~ occursIn "language" (toLowerCase "Count the STARS")
  /\ generateStatistics_spec Sample.isoDate Sample.info "Count the STARS"
     = starsForksSentence Sample.info
  /\ generateStatisticsAnswer Sample.isoDate Sample.info "Count the STARS"
     = snapshot Sample.isoDate Sample.info
  /\ generateStatisticsAnswer Sample.isoDate Sample.info "Count the STARS"
     <> generateStatistics_spec Sample.isoDate Sample.info "Count the STARS".
Proof.
  split; [apply includes_iff; reflexivity|].
  split; [apply includes_false_iff; reflexivity|].
  split; [reflexivity|]. split; [reflexivity|].
  vm_compute. discriminate.
Qed.

(** On a question that is already in lower case the two readings agree. *)
Lemma generateStatisticsAnswer_lowercase
    (toLocaleDateString : string -> string) (info : RepositoryInfo)
    (question : string) :
  toLowerCase question = question ->
  generateStatisticsAnswer toLocaleDateString info question
  = generateStatistics_spec toLocaleDateString info question.
Proof.
  intros H. unfold generateStatistics_spec. rewrite H. reflexivity.
Qed.

(* ------------------------------------------------------------------ *)
(** ** The orchestrator *)

Lemma getRepositoryInfo_rejects (octokit : Octokit) (owner repo : string)
    (e : JsError) (log : list Request) :
  fetchRejects octokit owner repo e ->
  exists log', getRepositoryInfo octokit owner repo log = (Rejected e, log').
Proof.
  unfold getRepositoryInfo. run_async.
  intros [H | [[d [Hd H]] | [d [l [Hd [Hl H]]]]]].
  - rewrite H. eauto.
  - rewrite Hd, H. eauto.
  - rewrite Hd, Hl, H. eauto.
Qed.

(** A fulfilled fetch issued exactly its three requests, in order. *)
Lemma getRepositoryInfo_requests (octokit : Octokit) (owner repo : string)
    (log log' : list Request) (info : RepositoryInfo) :
  getRepositoryInfo octokit owner repo log = (Fulfilled info, log') ->
  log' = (log ++ [ReposGet owner repo; ReposListLanguages owner repo;
                  ReposGetAllTopics owner repo])%list.
Proof.
  unfold getRepositoryInfo. run_async.
  destruct (repos_get octokit owner repo); [|discriminate].
  destruct (repos_listLanguages octokit owner repo); [|discriminate].
  destruct (repos_getAllTopics octokit owner repo); [|discriminate].
  intros H; injection H as _ <-. rewrite <- !app_assoc. reflexivity.
Qed.

(** Every rejection of the entry point is the credential error or a
    wrapped underlying error. *)
Lemma answer_repository_question_rejected
    (toLocaleDateString : string -> string) (newOctokit : JsValue -> Octokit)
    (params : Params) (userSettings : UserSettings) (log log' : list Request)
    (error : JsError) :
  answer_repository_question toLocaleDateString newOctokit params userSettings
    log = (Rejected error, log') ->
  (truthy (githubToken userSettings) = false
   /\ message error = "GitHub token is required" /\ log' = log)
  \/ (truthy (githubToken userSettings) = true
      /\ exists e, message error = "Failed to answer question: " ++ message e).
Proof.
  unfold answer_repository_question.
  destruct (truthy (githubToken userSettings)); cbn [negb].
  - intros H. right. split; [reflexivity|]. revert H.
    unfold tryCatch, bind at 1.
    destruct (getRepositoryInfo _ _ _ log) as [[info|e] log1].
    + unfold bind at 1.
      destruct (generateAnswer _ _ info _ _ log1) as [[a|e] log2].
      * unfold ret. discriminate.
      * unfold throw. intros H; injection H as <- _. exists e. reflexivity.
    + unfold throw. intros H; injection H as <- _. exists e. reflexivity.
  - unfold throw. intros H; injection H as <- <-. left. auto.
Qed.

(** C3. With the credential absent ([undefined] or [null]) or empty, the
    entry point rejects with the error "GitHub token is required" and the
    log of upstream requests is the one it started with: no request was
    issued. *)
Theorem missing_credential_rejected
    (toLocaleDateString : string -> string) (newOctokit : JsValue -> Octokit)
    (params : Params) (userSettings : UserSettings) (log : list Request) :
  githubToken userSettings = JsUndefined
  \/ githubToken userSettings = JsNull
  \/ githubToken userSettings = JsStr "" ->
  answer_repository_question toLocaleDateString newOctokit params userSettings log
  = (Rejected {| message := "GitHub token is required" |}, log).
Proof.
  intros H. unfold answer_repository_question.
  destruct H as [-> | [-> | ->]]; reflexivity.
Qed.

Lemma missing_credential_rejected_witness :
  answer_repository_question Sample.isoDate Sample.healthy
    {| owner := "octo"; repo := "tool";
       question := "What is this repository about?"; context := JsUndefined |}
    {| githubToken := JsStr "" |} []
  = (Rejected {| message := "GitHub token is required" |}, []).
Proof.
  apply missing_credential_rejected. right; right; reflexivity.
Defined.

(** C4. With a credential, when a request of the repository fetch is
    rejected, or the fetch succeeds, the question is technical and the code
    search is rejected, the entry point rejects with the single error
    "Failed to answer question: " followed by the message of the underlying
    error; it does not resolve to an answer. *)
Theorem failure_is_wrapped
    (toLocaleDateString : string -> string) (newOctokit : JsValue -> Octokit)
    (params : Params) (userSettings : UserSettings) (log : list Request)
    (e : JsError) :
  truthy (githubToken userSettings) = true ->
  fetchRejects (newOctokit (githubToken userSettings))
    (owner params) (repo params) e
  \/ (exists info log1,
        getRepositoryInfo (newOctokit (githubToken userSettings))
          (owner params) (repo params) log = (Fulfilled info, log1)
        /\ analyzeQuestionType (question params) = "technical"
        /\ search_code (newOctokit (githubToken userSettings))
             (searchQuery info (question params)) 5 = Rejected e) ->
  exists log',
    answer_repository_question toLocaleDateString newOctokit params
      userSettings log
    = (Rejected {| message := "Failed to answer question: " ++ message e |},
       log').
Proof.
  intros Htoken H. unfold answer_repository_question. rewrite Htoken.
  cbn [negb]. destruct H as [H | [info [log1 [Hfetch [Htech Hsearch]]]]].
  - destruct (getRepositoryInfo_rejects _ _ _ _ log H) as [log' Hrun].
    exists log'. unfold tryCatch, bind at 1. rewrite Hrun. reflexivity.
  - unfold tryCatch, bind at 1. rewrite Hfetch.
    unfold generateAnswer. rewrite Htech. cbn [String.eqb Ascii.eqb Bool.eqb].
    unfold findTechnicalAnswer. fold (searchQuery info (question params)).
    run_async. rewrite Hsearch. eauto.
Qed.

Lemma failure_is_wrapped_witness :
  (exists log',
     answer_repository_question Sample.isoDate Sample.notFound
       {| owner := "octo"; repo := "missing";
          question := "What is this repository about?";
          context := JsUndefined |}
       Sample.settings []
     = (Rejected {| message := "Failed to answer question: Not Found" |}, log'))
  /\ (exists log',
        answer_repository_question Sample.isoDate Sample.searchLimited
          {| owner := "octo"; repo := "tool";
             question := "How is the parser implemented?";
             context := JsUndefined |}
          Sample.settings []
        = (Rejected
             {| message := "Failed to answer question: API rate limit exceeded" |},
           log')).
Proof.
  split.
  - apply (failure_is_wrapped Sample.isoDate Sample.notFound _ Sample.settings
             [] {| message := "Not Found" |}); [reflexivity|].
    left. left. reflexivity.
  - apply (failure_is_wrapped Sample.isoDate Sample.searchLimited _
             Sample.settings [] {| message := "API rate limit exceeded" |});
      [reflexivity|].
    right. exists Sample.info. eexists.
    split; [reflexivity|]. split; reflexivity.
Defined.

Lemma analyzeQuestionType_cases (question : string) :
  analyzeQuestionType question = "technical"
  \/ analyzeQuestionType question = "statistics"
  \/ analyzeQuestionType question = "general".
Proof.
  unfold analyzeQuestionType.
  destruct (existsb _ technicalKeywords); [auto|].
  destruct (existsb _ statisticsKeywords); auto.
Qed.

Section GenerateAnswer.

Variable toLocaleDateString : string -> string.
Variables (octokit : Octokit) (info : RepositoryInfo).
Variables (question : string) (context : JsValue) (log : list Request).

Lemma generateAnswer_general :
  analyzeQuestionType question = "general" ->
  generateAnswer toLocaleDateString octokit info question context log
  = (Fulfilled {| text := generateGeneralAnswer info question;
                  relatedFiles := [];
                  suggestions := suggestionsFor info question context |},
     log).
Proof.
  intros H. unfold generateAnswer, suggestionsFor. rewrite H.
  cbn [String.eqb Ascii.eqb Bool.eqb]. run_async.
  destruct (truthy context); reflexivity.
Qed.

Lemma generateAnswer_statistics :
  analyzeQuestionType question = "statistics" ->
  generateAnswer toLocaleDateString octokit info question context log
  = (Fulfilled {| text := generateStatisticsAnswer toLocaleDateString info
                            question;
                  relatedFiles := [];
                  suggestions := suggestionsFor info question context |},
     log).
Proof.
  intros H. unfold generateAnswer, suggestionsFor. rewrite H.
  cbn [String.eqb Ascii.eqb Bool.eqb andb]. run_async.
  destruct (truthy context); reflexivity.
Qed.

Lemma generateAnswer_technical :
  analyzeQuestionType question = "technical" ->
  generateAnswer toLocaleDateString octokit info question context log
  = match findTechnicalAnswer octokit info question log with
    | (Fulfilled (text, files), log') =>
        (Fulfilled {| text := text; relatedFiles := files;
                      suggestions := suggestionsFor info question context |},
         log')
    | (Rejected e, log') => (Rejected e, log')
    end.
Proof.
  intros H. unfold generateAnswer, suggestionsFor. rewrite H.
  cbn [String.eqb Ascii.eqb Bool.eqb andb]. unfold bind.
  destruct (findTechnicalAnswer octokit info question log) as [[[t fs]|e] log'];
    [|reflexivity].
  unfold ret. destruct (truthy context); reflexivity.
Qed.

Lemma findTechnicalAnswer_run :
  findTechnicalAnswer octokit info question log
  = match search_code octokit (searchQuery info question) 5 with
    | Fulfilled results =>
        let files := map toFile (Upstream.items results) in
        (Fulfilled
           (if (0 <? List.length files)%nat
            then "I found some relevant files that might help answer your question:"
                   ++ newline ++ newline ++ join newline (map fileLine files)
            else "I could not find any relevant code files for your technical question.",
            files),
         (log ++ [SearchCode (searchQuery info question) 5])%list)
    | Rejected e =>
        (Rejected e, (log ++ [SearchCode (searchQuery info question) 5])%list)
    end.
Proof.
  unfold findTechnicalAnswer. fold (searchQuery info question). run_async.
  destruct (search_code octokit (searchQuery info question) 5); reflexivity.
Qed.

Lemma generateAnswer_suggestions (a : Answer) (log' : list Request) :
  generateAnswer toLocaleDateString octokit info question context log
  = (Fulfilled a, log') ->
  suggestions a = suggestionsFor info question context.
Proof.
  destruct (analyzeQuestionType_cases question) as [H | [H | H]].
  - rewrite (generateAnswer_technical H).
    destruct (findTechnicalAnswer octokit info question log)
      as [[[t fs]|e] l]; [|discriminate].
    intros E; injection E as <- _. reflexivity.
  - rewrite (generateAnswer_statistics H). intros E; injection E as <- _.
    reflexivity.
  - rewrite (generateAnswer_general H). intros E; injection E as <- _.
    reflexivity.
Qed.

Lemma generateAnswer_relatedFiles (a : Answer) (log' : list Request) :
  generateAnswer toLocaleDateString octokit info question context log
  = (Fulfilled a, log') ->
  relatedFiles a <> [] ->
  analyzeQuestionType question = "technical"
  /\ exists results,
       search_code octokit (searchQuery info question) 5 = Fulfilled results
       /\ Upstream.items results <> []
       /\ relatedFiles a = map toFile (Upstream.items results).
Proof.
  destruct (analyzeQuestionType_cases question) as [H | [H | H]].
  - rewrite (generateAnswer_technical H), findTechnicalAnswer_run.
    destruct (search_code octokit (searchQuery info question) 5)
      as [results|e]; [|discriminate].
    cbn zeta. intros E; injection E as <- _. cbn [relatedFiles].
    intros Hne. split; [exact H|]. exists results.
    split; [reflexivity|]. split; [|reflexivity].
    intros Hnil. apply Hne. rewrite Hnil. reflexivity.
  - rewrite (generateAnswer_statistics H). intros E; injection E as <- _.
    cbn [relatedFiles]. congruence.
  - rewrite (generateAnswer_general H). intros E; injection E as <- _.
    cbn [relatedFiles]. congruence.
Qed.

End GenerateAnswer.

(** A fulfilled run of the entry point had a credential, a fulfilled
    fetch and a fulfilled answer generation. *)
Lemma answer_repository_question_fulfilled
    (toLocaleDateString : string -> string) (newOctokit : JsValue -> Octokit)
    (params : Params) (userSettings : UserSettings) (log log' : list Request)
    (a : Answer) :
  answer_repository_question toLocaleDateString newOctokit params userSettings
    log = (Fulfilled a, log') ->
  truthy (githubToken userSettings) = true
  /\ exists info log1,
       getRepositoryInfo (newOctokit (githubToken userSettings))
         (owner params) (repo params) log = (Fulfilled info, log1)
       /\ generateAnswer toLocaleDateString
            (newOctokit (githubToken userSettings)) info (question params)
            (context params) log1 = (Fulfilled a, log').
Proof.
  unfold answer_repository_question.
  destruct (truthy (githubToken userSettings)); cbn [negb];
    [|unfold throw; discriminate].
  unfold tryCatch, bind at 1.
  destruct (getRepositoryInfo _ _ _ log) as [[info|e] log1];
    [|unfold throw; discriminate].
  unfold bind at 1.
  destruct (generateAnswer _ _ info _ _ log1) as [[a'|e] log2] eqn:E;
    [|unfold throw; discriminate].
  unfold ret. intros H; injection H as <- <-.
  split; [reflexivity|]. exists info, log1. split; [reflexivity | exact E].
Qed.

(* ------------------------------------------------------------------ *)
(** ** Suggestions *)

Lemma generateSuggestions_advisories (info : RepositoryInfo)
    (question : string) (context : JsValue) :
  generateSuggestions info question context
  = map snd (filter fst (advisories info)).
Proof.
  unfold generateSuggestions, advisories, push.
  destruct (negb (truthy (description info)));
    destruct (negb (truthy (homepage info)) && negb (has_pages info));
    destruct (List.length (topics info) =? 0)%nat;
    destruct (20 <? open_issues_count info)%N; reflexivity.
Qed.

(** C5. The suggestion generator returns exactly the advisories whose test
    holds, in the order description, homepage and pages, topics, open
    issues; and an answer to a request without context has no
    suggestions, whatever the repository. *)
Theorem suggestions_are_the_advisories_that_hold :
  (forall info question context,
      generateSuggestions info question context
      = map snd
          (filter fst
             [ (negb (truthy (description info)),
                "Add a repository description to help users understand the project better");
               (negb (truthy (homepage info)) && negb (has_pages info),
                "Consider adding a homepage or enabling GitHub Pages");
               ((List.length (topics info) =? 0)%nat,
                "Add repository topics to improve discoverability");
               ((20 <? open_issues_count info)%N,
                "Consider addressing some open issues to improve repository health") ]))
  /\ (forall toLocaleDateString newOctokit params userSettings log a log',
        truthy (context params) = false ->
        answer_repository_question toLocaleDateString newOctokit params
          userSettings log = (Fulfilled a, log') ->
        suggestions a = []).
Proof.
  split.
  - intros. apply generateSuggestions_advisories.
  - intros fmt newOctokit params userSettings log a log' Hctx Hrun.
    apply answer_repository_question_fulfilled in Hrun
      as [_ [info [log1 [_ Hgen]]]].
    apply generateAnswer_suggestions in Hgen. rewrite Hgen.
    unfold suggestionsFor. rewrite Hctx. reflexivity.
Qed.

Lemma suggestions_are_the_advisories_that_hold_witness :
  generateSuggestions Sample.info "What is this repository about?"
    (JsStr "onboarding")
  = [ "Consider adding a homepage or enabling GitHub Pages";
      "Add repository topics to improve discoverability" ]
  /\ exists a log',
       answer_repository_question Sample.isoDate Sample.healthy
         {| owner := "octo"; repo := "tool";
            question := "What is this repository about?";
            context := JsUndefined |}
         Sample.settings [] = (Fulfilled a, log')
       /\ suggestions a = [].
Proof.
  split.
  - exact (proj1 suggestions_are_the_advisories_that_hold Sample.info
             "What is this repository about?" (JsStr "onboarding")).
  - eexists. eexists. split; [reflexivity|].
    apply (proj2 suggestions_are_the_advisories_that_hold Sample.isoDate
             Sample.healthy
             {| owner := "octo"; repo := "tool";
                question := "What is this repository about?";
                context := JsUndefined |}
             Sample.settings [] _
             [ReposGet "octo" "tool"; ReposListLanguages "octo" "tool";
              ReposGetAllTopics "octo" "tool"]);
      reflexivity.
Defined.

(* ------------------------------------------------------------------ *)
(** ** Related files *)

(** C6. When the entry point resolves to an answer whose related files are
    not empty, the question was classified as technical and the code
    search resolved with at least one hit; the related files are those
    hits. *)
Theorem relatedFiles_only_for_technical_hits
    (toLocaleDateString : string -> string) (newOctokit : JsValue -> Octokit)
    (params : Params) (userSettings : UserSettings) (log log' : list Request)
    (a : Answer) :
  answer_repository_question toLocaleDateString newOctokit params userSettings
    log = (Fulfilled a, log') ->
  relatedFiles a <> [] ->
  analyzeQuestionType (question params) = "technical"
  /\ exists info results,
       search_code (newOctokit (githubToken userSettings))
         (searchQuery info (question params)) 5 = Fulfilled results
       /\ Upstream.items results <> []
       /\ relatedFiles a = map toFile (Upstream.items results).
Proof.
  intros Hrun Hne.
  apply answer_repository_question_fulfilled in Hrun
    as [_ [info [log1 [_ Hgen]]]].
  destruct (generateAnswer_relatedFiles _ _ _ _ _ _ _ _ Hgen Hne)
    as [Htech [results H]].
  split; [exact Htech|]. exists info, results. exact H.
Qed.

Lemma relatedFiles_only_for_technical_hits_witness :
  analyzeQuestionType "How is the parser implemented?" = "technical"
  /\ exists info results,
       search_code (Sample.healthy (JsStr "ghp_token"))
         (searchQuery info "How is the parser implemented?") 5
       = Fulfilled results
       /\ Upstream.items results <> []
       /\ [ {| name := "main.go"; path := "cmd/main.go";
               url := "https://example.org/octo/tool/cmd/main.go" |} ]
          = map toFile (Upstream.items results).
Proof.
  refine (relatedFiles_only_for_technical_hits Sample.isoDate Sample.healthy
            {| owner := "octo"; repo := "tool";
               question := "How is the parser implemented?";
               context := JsUndefined |}
            Sample.settings []
            [ReposGet "octo" "tool"; ReposListLanguages "octo" "tool";
             ReposGetAllTopics "octo" "tool";
             SearchCode "How is the parser implemented  repo:octo/tool" 5]
            {| text := _; relatedFiles := _; suggestions := _ |} _ _).
  - reflexivity.
  - cbn [relatedFiles]. discriminate.
Defined.

(* ------------------------------------------------------------------ *)
(** ** Technical answers *)

(** C9. When the code search resolves with no hit, the technical generator
    resolves to the fixed "could not find" message and an empty file list;
    when it resolves with hits, to a message that lists the path and url
    of each hit, one per line, and to the file list with one entry
    [{name, path, url}] per hit, in the order of the hits. *)
Theorem findTechnicalAnswer_result (octokit : Octokit) (info : RepositoryInfo)
    (question : string) (log : list Request)
    (results : Upstream.SearchResults) :
  search_code octokit
    (stripPunctuation question ++ " repo:" ++ full_name info) 5
  = Fulfilled results ->
  let hits := Upstream.items results in
  let files :=
    map (fun hit => {| name := Upstream.name hit;
                       path := Upstream.path hit;
                       url := Upstream.html_url hit |}) hits in
  let log' :=
    (log ++ [SearchCode (stripPunctuation question ++ " repo:"
                           ++ full_name info) 5])%list in
  (hits = [] ->
   findTechnicalAnswer octokit info question log
   = (Fulfilled
        ("I could not find any relevant code files for your technical question.",
         []),
      log'))
  /\ (hits <> [] ->
      findTechnicalAnswer octokit info question log
      = (Fulfilled
           ("I found some relevant files that might help answer your question:"
              ++ newline ++ newline
              ++ join newline
                   (map (fun hit => "- " ++ Upstream.path hit ++ " ("
                                      ++ Upstream.html_url hit ++ ")") hits),
            files),
         log'))
  /\ List.length files = List.length hits.
Proof.
  intros Hsearch hits files log'.
  rewrite findTechnicalAnswer_run. unfold searchQuery. rewrite Hsearch.
  cbn zeta. fold hits. subst files log'.
  split; [|split].
  - intros ->. reflexivity.
  - intros Hne. destruct hits as [|hit rest] eqn:E; [congruence|].
    rewrite <- E. replace (0 <? List.length (map toFile hits))%nat with true
      by (rewrite E; reflexivity).
    rewrite map_map. reflexivity.
  - apply length_map.
Qed.

Lemma findTechnicalAnswer_result_witness :
  findTechnicalAnswer (Sample.healthy JsNull) Sample.info
    "Where is main()?" []
  = (Fulfilled
       ("I found some relevant files that might help answer your question:"
          ++ newline ++ newline
          ++ "- cmd/main.go (https://example.org/octo/tool/cmd/main.go)",
        [ {| name := "main.go"; path := "cmd/main.go";
             url := "https://example.org/octo/tool/cmd/main.go" |} ]),
     [SearchCode "Where is main    repo:octo/tool" 5]).
Proof.
  refine (proj1 (proj2 (findTechnicalAnswer_result (Sample.healthy JsNull)
                          Sample.info "Where is main()?" []
                          {| Upstream.items := [Sample.hit] |} _)) _).
  - reflexivity.
  - cbn [Upstream.items]. discriminate.
Defined.

(* ------------------------------------------------------------------ *)
(** ** General answers *)

Lemma generateGeneralAnswer_about (info : RepositoryInfo) (question : string) :
  occursIn "about" question ->
  generateGeneralAnswer info question = aboutSentence info.
Proof.
  intros H. apply includes_iff in H.
  unfold generateGeneralAnswer, aboutSentence, homepageClause, topicsClause.
  rewrite H. destruct (topics info); reflexivity.
Qed.

Lemma generateGeneralAnswer_plain (info : RepositoryInfo) (question : string) :
  ~ occursIn "about" question ->
  generateGeneralAnswer info question = plainSentence info.
Proof.
  intros H. apply includes_false_iff in H.
  unfold generateGeneralAnswer. rewrite H. reflexivity.
Qed.

(** C7. For "What is this repository about?" and a repository described as
    "A test tool", written in "Go", with no homepage and no topics, the
    general answer contains "A test tool" and "Go" and has neither the
    homepage sentence nor the topics sentence. In general, on a question
    that contains "about", the homepage clause is there exactly when the
    homepage is truthy and the topics clause exactly when there are
    topics. *)
Theorem generateGeneralAnswer_about_clauses :
  (forall info,
      description info = JsStr "A test tool" ->
      language info = JsStr "Go" ->
      homepage info = JsNull ->
      topics info = [] ->
      generateGeneralAnswer info "What is this repository about?"
      = "This repository is A test tool written primarily in Go.  "
      /\ occursIn "A test tool"
           (generateGeneralAnswer info "What is this repository about?")
      /\ occursIn "Go"
           (generateGeneralAnswer info "What is this repository about?")
      /\ ~ occursIn "You can find more information at"
             (generateGeneralAnswer info "What is this repository about?")
      /\ ~ occursIn "tagged with the following topics"
             (generateGeneralAnswer info "What is this repository about?"))
  /\ (forall info question,
        occursIn "about" question ->
        generateGeneralAnswer info question
        = "This repository is "
            ++ render (jsOr (description info) (JsStr "a project"))
            ++ " written primarily in " ++ render (language info) ++ ". "
            ++ homepageClause info ++ " " ++ topicsClause info
        /\ (truthy (homepage info) = true ->
            homepageClause info
            = "You can find more information at " ++ render (homepage info)
                ++ ".")
        /\ (truthy (homepage info) = false -> homepageClause info = "")
        /\ (topics info <> [] ->
            topicsClause info
            = "It's tagged with the following topics: "
                ++ join ", " (topics info) ++ ".")
        /\ (topics info = [] -> topicsClause info = "")).
Proof.
  split.
  - intros info Hd Hl Hh Ht.
    assert (E : generateGeneralAnswer info "What is this repository about?"
                = "This repository is A test tool written primarily in Go.  ").
    { unfold generateGeneralAnswer. rewrite Hd, Hl, Hh, Ht. reflexivity. }
    rewrite E. split; [reflexivity|].
    split; [apply includes_iff; reflexivity|].
    split; [apply includes_iff; reflexivity|].
    split; apply includes_false_iff; reflexivity.
  - intros info question Habout.
    split; [apply (generateGeneralAnswer_about info question Habout)|].
    unfold homepageClause, topicsClause.
    split; [intros ->; reflexivity|]. split; [intros ->; reflexivity|].
    split; [|intros ->; reflexivity].
    destruct (topics info); [congruence | reflexivity].
Qed.

Lemma generateGeneralAnswer_about_clauses_witness :
  generateGeneralAnswer Sample.info "What is this repository about?"
  = "This repository is A test tool written primarily in Go.  ".
Proof.
  exact (proj1 (proj1 generateGeneralAnswer_about_clauses Sample.info
                  eq_refl eq_refl eq_refl eq_refl)).
Defined.

(** C10. The general generator tests the question as given for "about",
    so the test is case-sensitive. A question without a lower-case "about"
    (one that has it only as "About" or "ABOUT", say) and without a
    classifier keyword is classified as general and answered by the short
    sentence, which echoes the description as a template literal renders
    it: "undefined" or "null" when the description is absent. *)
Theorem about_dispatch_is_case_sensitive
    (toLocaleDateString : string -> string) (octokit : Octokit)
    (info : RepositoryInfo) (question : string) (context : JsValue)
    (log : list Request) :
  ~ occursIn "about" question ->
  (forall k, In k ["how"; "implement"; "code"; "function"; "class"; "method";
                   "many"; "count"; "size"; "number"; "statistics"] ->
             ~ occursIn k (toLowerCase question)) ->
  generateGeneralAnswer info question
  = "I found some general information about the repository: "
      ++ render (description info)
  /\ (exists a,
        generateAnswer toLocaleDateString octokit info question context log
        = (Fulfilled a, log)
        /\ text a = "I found some general information about the repository: "
                      ++ render (description info))
  /\ (description info = JsUndefined ->
      generateGeneralAnswer info question
      = "I found some general information about the repository: undefined")
  /\ (description info = JsNull ->
      generateGeneralAnswer info question
      = "I found some general information about the repository: null").
Proof.
  intros Habout Hkeys.
  pose proof (generateGeneralAnswer_plain info question Habout) as Hplain.
  unfold plainSentence in Hplain.
  assert (Hgeneral : analyzeQuestionType question = "general").
  { unfold analyzeQuestionType.
    destruct (existsb _ technicalKeywords) eqn:Et.
    - apply existsb_includes in Et as [k [Hin Hocc]].
      exfalso. apply (Hkeys k); [|exact Hocc].
      unfold technicalKeywords in Hin. simpl in Hin |- *. intuition.
    - destruct (existsb _ statisticsKeywords) eqn:Es; [|reflexivity].
      apply existsb_includes in Es as [k [Hin Hocc]].
      exfalso. apply (Hkeys k); [|exact Hocc].
      unfold statisticsKeywords in Hin. simpl in Hin |- *. intuition. }
  split; [exact Hplain|]. split.
  - eexists. split.
    + apply generateAnswer_general. exact Hgeneral.
    + cbn [text]. exact Hplain.
  - split; intros Hd; rewrite Hplain, Hd; reflexivity.
Qed.

Lemma about_dispatch_is_case_sensitive_witness :
  occursIn "about" (toLowerCase "ABOUT this repo")
  /\ exists a,
       generateAnswer Sample.isoDate (Sample.healthy JsNull)
         {| description := JsUndefined; homepage := JsNull;
            language := JsStr "Go"; size := 1; stargazers_count := 0;
            forks_count := 0; open_issues_count := 0;
            created_at := ""; updated_at := ""; full_name := "octo/tool";
            has_pages := false; languages := []; topics := [] |}
         "ABOUT this repo" JsUndefined []
       = (Fulfilled a, [])
       /\ text a
          = "I found some general information about the repository: undefined".
Proof.
  split; [apply includes_iff; reflexivity|].
  refine (proj1 (proj2 (about_dispatch_is_case_sensitive Sample.isoDate
                          (Sample.healthy JsNull) _ "ABOUT this repo"
                          JsUndefined [] _ _))).
  - apply includes_false_iff. reflexivity.
  - intros k Hin. apply includes_false_iff.
    simpl in Hin.
    repeat (destruct Hin as [<- | Hin]; [reflexivity|]). destruct Hin.
Defined.

(* ------------------------------------------------------------------ *)
(** ** The stars question *)

(** C8. For "How many stars?" and a repository with 42 stars and 7 forks
    the statistics answer is the stars/forks sentence with 42 and 7 in
    it; the size, the issue count and the dates do not appear. *)
Theorem generateStatisticsAnswer_stars
    (toLocaleDateString : string -> string) (info : RepositoryInfo) :
  stargazers_count info = 42%N ->
  forks_count info = 7%N ->
  generateStatisticsAnswer toLocaleDateString info "How many stars?"
  = "The repository has 42 stars and 7 forks"
  /\ generateStatisticsAnswer toLocaleDateString info "How many stars?"
     = starsForksSentence info
  /\ forall field, In field ["Size"; "KB"; "ssue"; "Created"; "Updated"] ->
       ~ occursIn field
           (generateStatisticsAnswer toLocaleDateString info "How many stars?").
Proof.
  intros Hs Hf.
  assert (E : generateStatisticsAnswer toLocaleDateString info "How many stars?"
              = "The repository has 42 stars and 7 forks").
  { unfold generateStatisticsAnswer.
    cbn [Stats.stars Stats.forks]. rewrite Hs, Hf. reflexivity. }
  split; [exact E|]. split.
  - rewrite E. unfold starsForksSentence. rewrite Hs, Hf. reflexivity.
  - rewrite E. intros field Hin. apply includes_false_iff. simpl in Hin.
    repeat (destruct Hin as [<- | Hin]; [reflexivity|]). destruct Hin.
Qed.

Lemma generateStatisticsAnswer_stars_witness :
  generateStatisticsAnswer Sample.isoDate Sample.info "How many stars?"
  = "The repository has 42 stars and 7 forks".
Proof.
  exact (proj1 (generateStatisticsAnswer_stars Sample.isoDate Sample.info
                  eq_refl eq_refl)).
Defined.

(* ------------------------------------------------------------------ *)
(** ** Requests issued *)

Lemma getRepositoryInfo_run (octokit : Octokit) (owner repo : string)
    (log : list Request) :
  getRepositoryInfo octokit owner repo log
  = match repos_get octokit owner repo with
    | Rejected e => (Rejected e, (log ++ firstn 1 (fetchRequests owner repo))%list)
    | Fulfilled d =>
        match repos_listLanguages octokit owner repo with
        | Rejected e =>
            (Rejected e, (log ++ firstn 2 (fetchRequests owner repo))%list)
        | Fulfilled l =>
            match repos_getAllTopics octokit owner repo with
            | Rejected e => (Rejected e, (log ++ fetchRequests owner repo)%list)
            | Fulfilled t =>
                (Fulfilled
                   {| description := Upstream.description d;
                      homepage := Upstream.homepage d;
                      language := Upstream.language d;
                      size := Upstream.size d;
                      stargazers_count := Upstream.stargazers_count d;
                      forks_count := Upstream.forks_count d;
                      open_issues_count := Upstream.open_issues_count d;
                      created_at := Upstream.created_at d;
                      updated_at := Upstream.updated_at d;
                      full_name := Upstream.full_name d;
                      has_pages := Upstream.has_pages d;
                      languages := l;
                      topics := Upstream.names t |},
                 (log ++ fetchRequests owner repo)%list)
            end
        end
    end.
Proof.
  unfold getRepositoryInfo, fetchRequests. run_async.
  destruct (repos_get octokit owner repo); [|reflexivity].
  destruct (repos_listLanguages octokit owner repo);
    [|cbn [firstn]; rewrite <- app_assoc; reflexivity].
  destruct (repos_getAllTopics octokit owner repo);
    rewrite <- !app_assoc; reflexivity.
Qed.

(** X1. The repository fetch issues its requests one after the other and
    stops at the first rejection: a rejected [repos.get] costs one request,
    a rejected [repos.listLanguages] two, a rejected [repos.getAllTopics]
    three, and the error is the rejected request's own, unwrapped. When all
    three resolve, the merged object has the languages and the topic names
    of the second and third responses. *)
Theorem getRepositoryInfo_stops_at_first_rejection (octokit : Octokit)
    (owner repo : string) (log : list Request) :
  (forall e, repos_get octokit owner repo = Rejected e ->
     getRepositoryInfo octokit owner repo log
     = (Rejected e, (log ++ [ReposGet owner repo])%list))
  /\ (forall d e, repos_get octokit owner repo = Fulfilled d ->
       repos_listLanguages octokit owner repo = Rejected e ->
       getRepositoryInfo octokit owner repo log
       = (Rejected e,
          (log ++ [ReposGet owner repo; ReposListLanguages owner repo])%list))
  /\ (forall d l e, repos_get octokit owner repo = Fulfilled d ->
       repos_listLanguages octokit owner repo = Fulfilled l ->
       repos_getAllTopics octokit owner repo = Rejected e ->
       getRepositoryInfo octokit owner repo log
       = (Rejected e,
          (log ++ [ReposGet owner repo; ReposListLanguages owner repo;
                   ReposGetAllTopics owner repo])%list))
  /\ (forall d l t, repos_get octokit owner repo = Fulfilled d ->
       repos_listLanguages octokit owner repo = Fulfilled l ->
       repos_getAllTopics octokit owner repo = Fulfilled t ->
       exists info,
         getRepositoryInfo octokit owner repo log
         = (Fulfilled info,
            (log ++ [ReposGet owner repo; ReposListLanguages owner repo;
                     ReposGetAllTopics owner repo])%list)
         /\ languages info = l
         /\ topics info = Upstream.names t
         /\ description info = Upstream.description d
         /\ full_name info = Upstream.full_name d).
Proof.
  rewrite getRepositoryInfo_run. repeat split.
  - intros e ->. reflexivity.
  - intros d e -> ->. reflexivity.
  - intros d l e -> -> ->. reflexivity.
  - intros d l t -> -> ->. eexists. split; [reflexivity|]. repeat split.
Qed.

Lemma getRepositoryInfo_stops_at_first_rejection_witness :
  getRepositoryInfo (Sample.notFound JsNull) "octo" "missing" []
  = (Rejected {| message := "Not Found" |}, [ReposGet "octo" "missing"]).
Proof.
  exact (proj1 (getRepositoryInfo_stops_at_first_rejection
                  (Sample.notFound JsNull) "octo" "missing" [])
           {| message := "Not Found" |} eq_refl).
Defined.

Lemma findTechnicalAnswer_log (octokit : Octokit) (info : RepositoryInfo)
    (question : string) (log : list Request) :
  snd (findTechnicalAnswer octokit info question log)
  = (log ++ [SearchCode (searchQuery info question) 5])%list.
Proof.
  rewrite findTechnicalAnswer_run.
  destruct (search_code octokit (searchQuery info question) 5); reflexivity.
Qed.

Lemma generateAnswer_log (toLocaleDateString : string -> string)
    (octokit : Octokit) (info : RepositoryInfo) (question : string)
    (context : JsValue) (log : list Request) :
  snd (generateAnswer toLocaleDateString octokit info question context log)
  = (log ++ if analyzeQuestionType question =? "technical"
            then [SearchCode (searchQuery info question) 5] else [])%list.
Proof.
  destruct (analyzeQuestionType_cases question) as [H | [H | H]].
  - rewrite (generateAnswer_technical _ _ _ _ _ _ H), H.
    pose proof (findTechnicalAnswer_log octokit info question log) as Hlog.
    destruct (findTechnicalAnswer octokit info question log)
      as [[[t fs]|e] l]; exact Hlog.
  - rewrite (generateAnswer_statistics _ _ _ _ _ _ H), H.
    cbn. rewrite app_nil_r. reflexivity.
  - rewrite (generateAnswer_general _ _ _ _ _ _ H), H.
    cbn. rewrite app_nil_r. reflexivity.
Qed.

Section EntryPoint.

Variable toLocaleDateString : string -> string.
Variable newOctokit : JsValue -> Octokit.
Variables (params : Params) (userSettings : UserSettings).
Variable log : list Request.

Let octokit : Octokit := newOctokit (githubToken userSettings).
Let run : Settled Answer * list Request :=
  answer_repository_question toLocaleDateString newOctokit params userSettings
    log.

Lemma answer_repository_question_log :
  snd run
  = if truthy (githubToken userSettings)
    then match getRepositoryInfo octokit (owner params) (repo params) log with
         | (Fulfilled info, log1) =>
             snd (generateAnswer toLocaleDateString octokit info
                    (question params) (context params) log1)
         | (Rejected _, log1) => log1
         end
    else log.
Proof.
  subst run octokit. unfold answer_repository_question.
  destruct (truthy (githubToken userSettings)); cbn [negb]; [|reflexivity].
  unfold tryCatch, bind at 1.
  destruct (getRepositoryInfo _ _ _ log) as [[info|e] log1]; [|reflexivity].
  unfold bind at 1.
  destruct (generateAnswer _ _ info _ _ log1) as [[a|e] log2]; reflexivity.
Qed.

(** X2. One invocation issues at most four upstream requests, whether it
    resolves or rejects: what it adds to the log is an initial part of the
    three requests of the fetch followed by one code search of page size 5. *)
Theorem answer_repository_question_request_budget :
  exists issued rest query,
    snd run = (log ++ issued)%list
    /\ (issued ++ rest)%list
       = (fetchRequests (owner params) (repo params)
            ++ [SearchCode query 5])%list
    /\ List.length issued <= 4.
Proof.
  rewrite answer_repository_question_log.
  destruct (truthy (githubToken userSettings)).
  - rewrite getRepositoryInfo_run.
    destruct (repos_get octokit (owner params) (repo params)) as [d|e].
    + destruct (repos_listLanguages octokit (owner params) (repo params))
        as [l|e].
      * destruct (repos_getAllTopics octokit (owner params) (repo params))
          as [t|e].
        -- rewrite generateAnswer_log.
           match goal with
           | |- context [searchQuery ?i ?q] => set (query := searchQuery i q)
           end.
           destruct (analyzeQuestionType (question params) =? "technical").
           ++ exists (fetchRequests (owner params) (repo params)
                        ++ [SearchCode query 5])%list, [], query.
              rewrite app_nil_r, <- app_assoc.
              split; [reflexivity|]. split; [reflexivity|]. cbn. lia.
           ++ exists (fetchRequests (owner params) (repo params)),
                     [SearchCode query 5], query.
              rewrite app_nil_r.
              split; [reflexivity|]. split; [reflexivity|]. cbn. lia.
        -- exists (fetchRequests (owner params) (repo params)),
                  [SearchCode "" 5], "".
           split; [reflexivity|]. split; [reflexivity|]. cbn. lia.
      * exists (firstn 2 (fetchRequests (owner params) (repo params))),
               [ReposGetAllTopics (owner params) (repo params);
                SearchCode "" 5], "".
        split; [reflexivity|]. split; [reflexivity|]. cbn. lia.
    + exists (firstn 1 (fetchRequests (owner params) (repo params))),
             [ReposListLanguages (owner params) (repo params);
              ReposGetAllTopics (owner params) (repo params);
              SearchCode "" 5], "".
      split; [reflexivity|]. split; [reflexivity|]. cbn. lia.
  - exists [], (fetchRequests (owner params) (repo params)
                  ++ [SearchCode "" 5])%list, "".
    rewrite app_nil_r. split; [reflexivity|]. split; [reflexivity|]. cbn. lia.
Qed.

(** X3. The entry point rejects only for a missing credential, before any
    request, or for a rejected upstream request, whose message it prefixes
    with "Failed to answer question: ": the rejected request is one of the
    three of the fetch or the code search of a technical question. *)
Theorem answer_repository_question_rejection_origin (error : JsError)
    (log' : list Request) :
  run = (Rejected error, log') ->
  (truthy (githubToken userSettings) = false
   /\ message error = "GitHub token is required" /\ log' = log)
  \/ (truthy (githubToken userSettings) = true
      /\ exists e,
           message error = "Failed to answer question: " ++ message e
           /\ (repos_get octokit (owner params) (repo params) = Rejected e
               \/ repos_listLanguages octokit (owner params) (repo params)
                  = Rejected e
               \/ repos_getAllTopics octokit (owner params) (repo params)
                  = Rejected e
               \/ (analyzeQuestionType (question params) = "technical"
                   /\ exists info,
                        search_code octokit
                          (searchQuery info (question params)) 5
                        = Rejected e))).
Proof.
  subst run octokit. unfold answer_repository_question.
  destruct (truthy (githubToken userSettings)); cbn [negb].
  - intros H. right. split; [reflexivity|]. revert H.
    unfold tryCatch, bind at 1. rewrite getRepositoryInfo_run.
    destruct (repos_get _ _ _) as [d|e] eqn:Hd.
    + destruct (repos_listLanguages _ _ _) as [l|e] eqn:Hl.
      * destruct (repos_getAllTopics _ _ _) as [t|e] eqn:Ht.
        -- unfold bind at 1.
           match goal with
           | |- context [generateAnswer _ _ ?i _ _ ?l1] =>
               set (info := i); set (log1 := l1)
           end.
           destruct (analyzeQuestionType_cases (question params))
             as [Hq | [Hq | Hq]].
           ++ rewrite (generateAnswer_technical _ _ _ _ _ _ Hq),
                findTechnicalAnswer_run.
              destruct (search_code _ (searchQuery info (question params)) 5)
                as [results|e] eqn:Hs.
              ** cbn zeta. unfold ret. discriminate.
              ** unfold throw. intros H; injection H as <- _.
                 exists e. split; [reflexivity|].
                 right; right; right. split; [exact Hq|].
                 exists info. exact Hs.
           ++ rewrite (generateAnswer_statistics _ _ _ _ _ _ Hq).
              unfold ret. discriminate.
           ++ rewrite (generateAnswer_general _ _ _ _ _ _ Hq).
              unfold ret. discriminate.
        -- unfold throw. intros H; injection H as <- _.
           exists e. split; [reflexivity|]. auto.
      * unfold throw. intros H; injection H as <- _.
        exists e. split; [reflexivity|]. auto.
    + unfold throw. intros H; injection H as <- _.
      exists e. split; [reflexivity|]. auto.
  - unfold throw. intros H; injection H as <- <-. left. auto.
Qed.

(** X4. A run that resolves issued the three requests of the fetch, in
    order, and after them the code search exactly when the question is
    technical; the search is scoped to the fetched repository's full name
    and asks for five results. *)
Theorem answer_repository_question_fulfilled_requests (a : Answer)
    (log' : list Request) :
  run = (Fulfilled a, log') ->
  exists info,
    getRepositoryInfo octokit (owner params) (repo params) log
    = (Fulfilled info,
       (log ++ fetchRequests (owner params) (repo params))%list)
    /\ log'
       = (log ++ fetchRequests (owner params) (repo params)
            ++ if analyzeQuestionType (question params) =? "technical"
               then [SearchCode
                       (stripPunctuation (question params) ++ " repo:"
                          ++ full_name info) 5]
               else [])%list.
Proof.
  intros H. subst run octokit.
  apply answer_repository_question_fulfilled in H
    as [_ [info [log1 [Hfetch Hgen]]]].
  pose proof (getRepositoryInfo_requests _ _ _ _ _ _ Hfetch) as ->.
  exists info. split; [exact Hfetch|].
  pose proof (generateAnswer_log toLocaleDateString
                (newOctokit (githubToken userSettings)) info
                (question params) (context params)
                (log ++ fetchRequests (owner params) (repo params))%list)
    as Hlog.
  unfold fetchRequests in *. rewrite Hgen in Hlog. cbn [snd] in Hlog.
  rewrite Hlog, <- app_assoc. reflexivity.
Qed.

End EntryPoint.

Lemma answer_repository_question_rejection_origin_witness :
  exists e,
    "Failed to answer question: API rate limit exceeded"
    = "Failed to answer question: " ++ message e
    /\ exists info,
         search_code (Sample.searchLimited (JsStr "ghp_token"))
           (searchQuery info "How is the parser implemented?") 5
         = Rejected e.
Proof.
  destruct (answer_repository_question_rejection_origin Sample.isoDate
              Sample.searchLimited
              {| owner := "octo"; repo := "tool";
                 question := "How is the parser implemented?";
                 context := JsUndefined |}
              Sample.settings []
              {| message := "Failed to answer question: API rate limit exceeded" |}
              (fetchRequests "octo" "tool"
                 ++ [SearchCode "How is the parser implemented  repo:octo/tool" 5])
              eq_refl)
    as [[H _] | [_ [e [Hm [H | [H | [H | [_ H]]]]]]]];
    try discriminate H.
  exists e. split; [exact Hm | exact H].
Defined.

Lemma answer_repository_question_fulfilled_requests_witness :
  exists info,
    getRepositoryInfo (Sample.healthy (JsStr "ghp_token")) "octo" "tool" []
    = (Fulfilled info, fetchRequests "octo" "tool")
    /\ [ReposGet "octo" "tool"; ReposListLanguages "octo" "tool";
        ReposGetAllTopics "octo" "tool";
        SearchCode "How is the parser implemented  repo:octo/tool" 5]
       = (fetchRequests "octo" "tool"
            ++ [SearchCode
                  (stripPunctuation "How is the parser implemented?"
                     ++ " repo:" ++ full_name info) 5])%list.
Proof.
  exact (answer_repository_question_fulfilled_requests Sample.isoDate
           Sample.healthy
           {| owner := "octo"; repo := "tool";
              question := "How is the parser implemented?";
              context := JsUndefined |}
           Sample.settings []
           {| text := foundText [toFile Sample.hit];
              relatedFiles := [toFile Sample.hit];
              suggestions := [] |}
           [ReposGet "octo" "tool"; ReposListLanguages "octo" "tool";
            ReposGetAllTopics "octo" "tool";
            SearchCode "How is the parser implemented  repo:octo/tool" 5]
           eq_refl).
Defined.

(* ------------------------------------------------------------------ *)
(** ** Case and context of a question *)

Lemma append_assoc (a b c : string) : (a ++ b) ++ c = a ++ b ++ c.
Proof. induction a as [|x a IH]; simpl; [reflexivity | rewrite IH; reflexivity]. Qed.

Lemma occursIn_trans (k s t : string) :
  occursIn k s -> occursIn s t -> occursIn k t.
Proof.
  intros [p1 [q1 ->]] [p2 [q2 ->]]. exists (p2 ++ p1), (q1 ++ q2).
  rewrite !append_assoc. reflexivity.
Qed.

Lemma lowerUnit_idempotent (c : ascii) : lowerUnit (lowerUnit c) = lowerUnit c.
Proof. destruct c as [[] [] [] [] [] [] [] []]; reflexivity. Qed.

Lemma toLowerCase_idempotent (s : string) :
  toLowerCase (toLowerCase s) = toLowerCase s.
Proof.
  induction s as [|c s IH]; simpl;
    [reflexivity | rewrite lowerUnit_idempotent, IH; reflexivity].
Qed.

Lemma toLowerCase_append (a b : string) :
  toLowerCase (a ++ b) = toLowerCase a ++ toLowerCase b.
Proof.
  induction a as [|c a IH]; simpl; [reflexivity | rewrite IH; reflexivity].
Qed.

Lemma occursIn_toLowerCase (k s : string) :
  occursIn k s -> occursIn (toLowerCase k) (toLowerCase s).
Proof.
  intros [pre [post ->]]. exists (toLowerCase pre), (toLowerCase post).
  rewrite !toLowerCase_append. reflexivity.
Qed.

Lemma analyzeQuestionType_technical_iff (question : string) :
  analyzeQuestionType question = "technical"
  <-> exists k, In k technicalKeywords /\ occursIn k (toLowerCase question).
Proof.
  rewrite <- existsb_includes. unfold analyzeQuestionType.
  destruct (existsb _ technicalKeywords); [tauto|].
  destruct (existsb _ statisticsKeywords); split; discriminate.
Qed.

Lemma analyzeQuestionType_general_iff (question : string) :
  analyzeQuestionType question = "general"
  <-> forall k, In k (technicalKeywords ++ statisticsKeywords)%list ->
                ~ occursIn k (toLowerCase question).
Proof.
  unfold analyzeQuestionType.
  pose proof (existsb_includes (toLowerCase question) technicalKeywords) as Ht.
  pose proof (existsb_includes (toLowerCase question) statisticsKeywords) as Hs.
  destruct (existsb _ technicalKeywords).
  - split; [discriminate|]. intros H. exfalso.
    destruct (proj1 Ht eq_refl) as [k [Hin Hocc]].
    apply (H k); [apply in_or_app; auto | exact Hocc].
  - destruct (existsb _ statisticsKeywords).
    + split; [discriminate|]. intros H. exfalso.
      destruct (proj1 Hs eq_refl) as [k [Hin Hocc]].
      apply (H k); [apply in_or_app; auto | exact Hocc].
    + split; [|reflexivity]. intros _ k Hin Hocc.
      apply in_app_or in Hin as [Hin | Hin].
      * assert (false = true) by (apply Ht; eauto). discriminate.
      * assert (false = true) by (apply Hs; eauto). discriminate.
Qed.

(** X5. Classification does not depend on the case of the question: the
    lower-cased question is classified as the question is. *)
Theorem analyzeQuestionType_ignores_case (question : string) :
  analyzeQuestionType (toLowerCase question) = analyzeQuestionType question.
Proof.
  unfold analyzeQuestionType. rewrite toLowerCase_idempotent. reflexivity.
Qed.

(** X6. Classification is monotone in the text of the question. Text added
    before or after a technical question leaves it technical, and a
    question that is general has only general questions as parts. *)
Theorem analyzeQuestionType_monotone (before question after : string) :
  (analyzeQuestionType question = "technical" ->
   analyzeQuestionType (before ++ question ++ after) = "technical")
  /\ (analyzeQuestionType (before ++ question ++ after) = "general" ->
      analyzeQuestionType question = "general").
Proof.
  assert (Hpart : occursIn (toLowerCase question)
                    (toLowerCase (before ++ question ++ after))).
  { apply occursIn_toLowerCase. exists before, after. reflexivity. }
  split.
  - rewrite !analyzeQuestionType_technical_iff. intros [k [Hin Hocc]].
    exists k. split; [exact Hin | exact (occursIn_trans _ _ _ Hocc Hpart)].
  - rewrite !analyzeQuestionType_general_iff. intros H k Hin Hocc.
    apply (H k Hin). exact (occursIn_trans _ _ _ Hocc Hpart).
Qed.

Lemma analyzeQuestionType_monotone_witness :
  analyzeQuestionType ("Tell me: " ++ "HOW does it work" ++ ", in numbers?")
  = "technical".
Proof.
  exact (proj1 (analyzeQuestionType_monotone "Tell me: " "HOW does it work"
                  ", in numbers?") eq_refl).
Defined.

(* ------------------------------------------------------------------ *)
(** ** The query of the code search *)

Lemma unitsOf_append (a b : string) :
  unitsOf (a ++ b) = (unitsOf a ++ unitsOf b)%list.
Proof.
  unfold unitsOf. induction a as [|c a IH]; simpl;
    [reflexivity | rewrite IH; reflexivity].
Qed.

Lemma stripPunctuation_units (s : string) :
  Forall (fun c => isPunctuation c = false) (unitsOf (stripPunctuation s)).
Proof.
  unfold unitsOf, isPunctuation. induction s as [|c s IH]; simpl.
  - constructor.
  - constructor; [|exact IH].
    destruct (isWordUnit c || isSpaceUnit c) eqn:E;
      [rewrite E; reflexivity | reflexivity].
Qed.

Lemma stripPunctuation_length (s : string) :
  String.length (stripPunctuation s) = String.length s.
Proof. induction s as [|c s IH]; simpl; [reflexivity | rewrite IH; reflexivity]. Qed.

Lemma stripPunctuation_clean (s : string) :
  Forall (fun c => isPunctuation c = false) (unitsOf s) ->
  stripPunctuation s = s.
Proof.
  unfold unitsOf, isPunctuation. induction s as [|c s IH]; simpl.
  - reflexivity.
  - intros H. inversion H as [|? ? Hc Hs]; subst.
    apply negb_false_iff in Hc. rewrite Hc, (IH Hs). reflexivity.
Qed.

(** X7. The code search of a technical question is asked with a query in
    which the question keeps its length, every code unit that is neither a
    word character nor white space has become a space, and the scope
    [repo:full_name] follows; so the question cannot contribute characters
    such as the colon of a search qualifier or a quotation mark. A question
    without such characters is passed on unchanged. *)
Theorem findTechnicalAnswer_query (octokit : Octokit) (info : RepositoryInfo)
    (question : string) (log : list Request) :
  exists cleaned,
    snd (findTechnicalAnswer octokit info question log)
    = (log ++ [SearchCode (cleaned ++ " repo:" ++ full_name info) 5])%list
    /\ String.length cleaned = String.length question
    /\ (forall c, isPunctuation c = true ->
                  ~ occursIn (String c "") cleaned)
    /\ (Forall (fun c => isPunctuation c = false) (unitsOf question) ->
        cleaned = question).
Proof.
  exists (stripPunctuation question).
  split; [apply findTechnicalAnswer_log|].
  split; [apply stripPunctuation_length|].
  split; [|apply stripPunctuation_clean].
  intros c Hc [pre [post H]].
  pose proof (stripPunctuation_units question) as Hall.
  rewrite H, !unitsOf_append in Hall.
  apply Forall_app in Hall as [_ Hall].
  apply Forall_app in Hall as [Hall _].
  inversion Hall as [|? ? Hc' _]; subst. congruence.
Qed.

Lemma findTechnicalAnswer_query_witness :
  exists cleaned,
    snd (findTechnicalAnswer (Sample.healthy JsNull) Sample.info
           "main.go" [])
    = [SearchCode (cleaned ++ " repo:" ++ "octo/tool") 5]
    /\ ~ occursIn ":" cleaned.
Proof.
  destruct (findTechnicalAnswer_query (Sample.healthy JsNull) Sample.info
              "main.go" []) as [cleaned [Hlog [_ [Hclean _]]]].
  exists cleaned. split; [exact Hlog | exact (Hclean ":"%char eq_refl)].
Defined.

(* ------------------------------------------------------------------ *)
(** ** When suggestions are made *)

(** X8. The suggestion generator has nothing to suggest exactly for a
    repository with a description, with a homepage or GitHub Pages, with
    at least one topic and with at most 20 open issues. *)
Theorem generateSuggestions_empty_iff (info : RepositoryInfo)
    (question : string) (context : JsValue) :
  generateSuggestions info question context = []
  <-> truthy (description info) = true
      /\ (truthy (homepage info) = true \/ has_pages info = true)
      /\ topics info <> []
      /\ (open_issues_count info <= 20)%N.
Proof.
  rewrite generateSuggestions_advisories. unfold advisories.
  destruct (truthy (description info)); destruct (truthy (homepage info));
    destruct (has_pages info); destruct (topics info) as [|t ts];
    destruct (N.ltb_spec 20 (open_issues_count info));
    cbn [negb andb List.length Nat.eqb filter fst map snd];
    (split;
     [ intros H'; try discriminate H';
       repeat split; auto; try lia; discriminate
     | intros [H1 [H2 [H3 H4]]]; try reflexivity; try discriminate H1;
       try (destruct H2 as [H2 | H2]; discriminate H2);
       try congruence; lia ]).
Qed.

(** X9. Each advisory is suggested exactly when its own test holds,
    whatever the other tests say, and none is suggested twice: the
    description advisory for a falsy description, the homepage advisory
    for a falsy homepage with Pages disabled, the topics advisory for an
    empty topic list, the issues advisory for more than 20 open issues. *)
Theorem generateSuggestions_membership (info : RepositoryInfo)
    (question : string) (context : JsValue) :
  (In "Add a repository description to help users understand the project better"
      (generateSuggestions info question context)
   <-> truthy (description info) = false)
  /\ (In "Consider adding a homepage or enabling GitHub Pages"
         (generateSuggestions info question context)
      <-> truthy (homepage info) = false /\ has_pages info = false)
  /\ (In "Add repository topics to improve discoverability"
         (generateSuggestions info question context)
      <-> topics info = [])
  /\ (In "Consider addressing some open issues to improve repository health"
         (generateSuggestions info question context)
      <-> (20 < open_issues_count info)%N)
  /\ NoDup (generateSuggestions info question context).
Proof.
  rewrite generateSuggestions_advisories. unfold advisories.
  destruct (truthy (description info)); destruct (truthy (homepage info));
    destruct (has_pages info); destruct (topics info) as [|t ts];
    destruct (N.ltb_spec 20 (open_issues_count info));
    cbn [negb andb List.length Nat.eqb filter fst map snd];
    (split; [|split; [|split; [|split]]]);
    try (repeat constructor; cbn [In]; intuition discriminate);
    (split;
     [ cbn [In]; intros H';
       repeat match goal with
              | H' : _ \/ _ |- _ => destruct H' as [H' | H']
              end;
       try discriminate H'; try contradiction; auto; lia
     | intros H'; try discriminate H'; try lia;
       try (destruct H' as [H1 H2]; try discriminate H1; discriminate H2);
       cbn [In]; auto 6 ]).
Qed.

(* ------------------------------------------------------------------ *)
(** ** What an answer holds *)

Lemma technical_text_cases (files : list File) :
  (if (0 <? List.length files)%nat
   then "I found some relevant files that might help answer your question:"
          ++ newline ++ newline ++ join newline (map fileLine files)
   else "I could not find any relevant code files for your technical question.")
  = match files with
    | [] => notFoundText
    | _ :: _ => foundText files
    end.
Proof. destruct files; reflexivity. Qed.

(** X10. The text of an answer is never empty and never the text of the
    [default] label of the [switch]: that label is not reachable. *)
Theorem generateAnswer_text_informative
    (toLocaleDateString : string -> string) (octokit : Octokit)
    (info : RepositoryInfo) (question : string) (context : JsValue)
    (log log' : list Request) (a : Answer) :
  generateAnswer toLocaleDateString octokit info question context log
  = (Fulfilled a, log') ->
  text a <> ""
  /\ text a <> "I apologize, but I cannot understand the question type.".
Proof.
  destruct (analyzeQuestionType_cases question) as [H | [H | H]].
  - rewrite (generateAnswer_technical _ _ _ _ _ _ H), findTechnicalAnswer_run.
    destruct (search_code octokit (searchQuery info question) 5)
      as [results|e]; [|discriminate].
    cbn zeta. rewrite technical_text_cases.
    intros E; injection E as <- _. cbn [text].
    destruct (map toFile (Upstream.items results));
      unfold notFoundText, foundText; split; intros E; simpl in E;
      discriminate E.
  - rewrite (generateAnswer_statistics _ _ _ _ _ _ H).
    intros E; injection E as <- _. cbn [text].
    unfold generateStatisticsAnswer.
    destruct (includes question "language");
      [|destruct (includes question "popular" || includes question "stars");
        [|destruct (includes question "issue")]];
      split; intros E; simpl in E; discriminate E.
  - rewrite (generateAnswer_general _ _ _ _ _ _ H).
    intros E; injection E as <- _. cbn [text].
    unfold generateGeneralAnswer.
    destruct (includes question "about");
      split; intros E; simpl in E; discriminate E.
Qed.

Lemma generateAnswer_text_informative_witness :
  "I found some general information about the repository: A test tool" <> ""
  /\ "I found some general information about the repository: A test tool"
     <> "I apologize, but I cannot understand the question type.".
Proof.
  exact (generateAnswer_text_informative Sample.isoDate (Sample.healthy JsNull)
           Sample.info "What languages are used?" JsUndefined [] []
           {| text := "I found some general information about the repository: A test tool";
              relatedFiles := []; suggestions := [] |}
           eq_refl).
Defined.

Lemma analyzeQuestionType_not_technical (question : string) :
  (forall k, In k technicalKeywords -> ~ occursIn k (toLowerCase question)) ->
  analyzeQuestionType question = "statistics"
  \/ analyzeQuestionType question = "general".
Proof.
  intros H. destruct (analyzeQuestionType_cases question) as [Ht | [Hs | Hg]];
    [|auto|auto].
  apply analyzeQuestionType_technical_iff in Ht as [k [Hin Hocc]].
  exfalso. exact (H k Hin Hocc).
Qed.

Lemma analyzeQuestionType_statistics_iff (question : string) :
  analyzeQuestionType question = "statistics"
  <-> (forall k, In k technicalKeywords -> ~ occursIn k (toLowerCase question))
      /\ exists k, In k statisticsKeywords /\ occursIn k (toLowerCase question).
Proof.
  unfold analyzeQuestionType.
  pose proof (existsb_includes (toLowerCase question) technicalKeywords) as Ht.
  pose proof (existsb_includes (toLowerCase question) statisticsKeywords) as Hs.
  destruct (existsb _ technicalKeywords).
  - split; [discriminate|]. intros [H _]. exfalso.
    destruct (proj1 Ht eq_refl) as [k [Hin Hocc]]. exact (H k Hin Hocc).
  - destruct (existsb _ statisticsKeywords).
    + split; [|reflexivity]. intros _. split; [|apply Hs; reflexivity].
      intros k Hin Hocc.
      assert (false = true) by (apply Ht; eauto). discriminate.
    + split; [discriminate|]. intros [_ H].
      assert (false = true) by (apply Hs; exact H). discriminate.
Qed.

(** X11. A question whose lower-casing contains no technical keyword is
    answered without a further upstream request and cannot fail: the
    answer has no related files, and its text is the statistics answer
    when a statistics keyword occurs and the general answer otherwise, so
    a question that only mentions languages, stars or issues gets the
    general answer. *)
Theorem generateAnswer_without_technical_keyword
    (toLocaleDateString : string -> string) (octokit : Octokit)
    (info : RepositoryInfo) (question : string) (context : JsValue)
    (log : list Request) :
  (forall k, In k ["how"; "implement"; "code"; "function"; "class"; "method"] ->
             ~ occursIn k (toLowerCase question)) ->
  exists a,
    generateAnswer toLocaleDateString octokit info question context log
    = (Fulfilled a, log)
    /\ relatedFiles a = []
    /\ ((exists k, In k ["many"; "count"; "size"; "number"; "statistics"]
                   /\ occursIn k (toLowerCase question)) ->
        text a = generateStatisticsAnswer toLocaleDateString info question)
    /\ ((forall k, In k ["many"; "count"; "size"; "number"; "statistics"] ->
                   ~ occursIn k (toLowerCase question)) ->
        text a = generateGeneralAnswer info question).
Proof.
  intros Hno.
  destruct (analyzeQuestionType_not_technical question Hno) as [H | H].
  - rewrite (generateAnswer_statistics _ _ _ _ _ _ H). eexists.
    split; [reflexivity|]. split; [reflexivity|]. cbn [text].
    split; [reflexivity|]. intros Hnone.
    apply analyzeQuestionType_statistics_iff in H as [_ [k [Hin Hocc]]].
    exfalso. exact (Hnone k Hin Hocc).
  - rewrite (generateAnswer_general _ _ _ _ _ _ H). eexists.
    split; [reflexivity|]. split; [reflexivity|]. cbn [text].
    split; [|reflexivity]. intros [k [Hin Hocc]].
    exfalso. apply (proj1 (analyzeQuestionType_general_iff question) H k);
      [apply in_or_app; right; exact Hin | exact Hocc].
Qed.

Lemma generateAnswer_without_technical_keyword_witness :
  exists a,
    generateAnswer Sample.isoDate (Sample.notFound JsNull) Sample.info
      "What languages are used?" JsUndefined []
    = (Fulfilled a, [])
    /\ text a
       = "I found some general information about the repository: A test tool".
Proof.
  destruct (generateAnswer_without_technical_keyword Sample.isoDate
              (Sample.notFound JsNull) Sample.info "What languages are used?"
              JsUndefined [])
    as [a [Hrun [_ [_ Hgeneral]]]].
  - intros k Hin. apply includes_false_iff. cbn [In] in Hin.
    repeat (destruct Hin as [<- | Hin]; [reflexivity|]). destruct Hin.
  - exists a. split; [exact Hrun|]. rewrite Hgeneral; [reflexivity|].
    intros k Hin. apply includes_false_iff. cbn [In] in Hin.
    repeat (destruct Hin as [<- | Hin]; [reflexivity|]). destruct Hin.
Defined.

(* ------------------------------------------------------------------ *)
(** ** When the entry point resolves *)

(** X12. The entry point resolves to an answer exactly when the credential
    is truthy, the three requests of the fetch resolve and, if the question
    is technical, the code search scoped to the fetched full name resolves
    too; a question that is not technical does not depend on the search. *)
Theorem answer_repository_question_resolves_iff
    (toLocaleDateString : string -> string) (newOctokit : JsValue -> Octokit)
    (params : Params) (userSettings : UserSettings) (log : list Request) :
  (exists a log',
      answer_repository_question toLocaleDateString newOctokit params
        userSettings log = (Fulfilled a, log'))
  <-> truthy (githubToken userSettings) = true
      /\ exists d l t,
           repos_get (newOctokit (githubToken userSettings))
             (owner params) (repo params) = Fulfilled d
           /\ repos_listLanguages (newOctokit (githubToken userSettings))
                (owner params) (repo params) = Fulfilled l
           /\ repos_getAllTopics (newOctokit (githubToken userSettings))
                (owner params) (repo params) = Fulfilled t
           /\ (analyzeQuestionType (question params) <> "technical"
               \/ exists results,
                    search_code (newOctokit (githubToken userSettings))
                      (stripPunctuation (question params) ++ " repo:"
                         ++ Upstream.full_name d) 5
                    = Fulfilled results).
Proof.
  set (octokit := newOctokit (githubToken userSettings)).
  split.
  - intros [a [log' Hrun]].
    apply answer_repository_question_fulfilled in Hrun
      as [Htoken [info [log1 [Hfetch Hgen]]]].
    fold octokit in Hfetch, Hgen. split; [exact Htoken|].
    rewrite getRepositoryInfo_run in Hfetch.
    destruct (repos_get octokit (owner params) (repo params)) as [d|e];
      [|discriminate].
    destruct (repos_listLanguages octokit (owner params) (repo params))
      as [l|e]; [|discriminate].
    destruct (repos_getAllTopics octokit (owner params) (repo params))
      as [t|e]; [|discriminate].
    injection Hfetch as <- <-.
    exists d, l, t. repeat (split; [reflexivity|]).
    destruct (analyzeQuestionType_cases (question params)) as [H | [H | H]];
      [|left; rewrite H; discriminate|left; rewrite H; discriminate].
    right. rewrite (generateAnswer_technical _ _ _ _ _ _ H),
      findTechnicalAnswer_run in Hgen.
    unfold searchQuery in Hgen. cbn [full_name] in Hgen.
    destruct (search_code octokit _ 5) as [results|e]; [|discriminate].
    exists results. reflexivity.
  - intros [Htoken [d [l [t [Hd [Hl [Ht Hq]]]]]]].
    unfold answer_repository_question. rewrite Htoken. cbn [negb].
    fold octokit. unfold tryCatch, bind at 1.
    rewrite getRepositoryInfo_run, Hd, Hl, Ht. unfold bind at 1.
    destruct (analyzeQuestionType_cases (question params)) as [H | [H | H]].
    + destruct Hq as [Hq | [results Hs]]; [congruence|].
      rewrite (generateAnswer_technical _ _ _ _ _ _ H),
        findTechnicalAnswer_run.
      unfold searchQuery. cbn [full_name]. rewrite Hs. cbn zeta.
      unfold ret. eauto.
    + rewrite (generateAnswer_statistics _ _ _ _ _ _ H). unfold ret. eauto.
    + rewrite (generateAnswer_general _ _ _ _ _ _ H). unfold ret. eauto.
Qed.

(* ------------------------------------------------------------------ *)
(** ** What the context and the locale can change *)

Lemma suggestionsFor_context (info : RepositoryInfo) (question : string)
    (context1 context2 : JsValue) :
  truthy context1 = truthy context2 ->
  suggestionsFor info question context1 = suggestionsFor info question context2.
Proof.
  unfold suggestionsFor. intros ->. destruct (truthy context2); reflexivity.
Qed.

Lemma generateAnswer_context (toLocaleDateString : string -> string)
    (octokit : Octokit) (info : RepositoryInfo) (question : string)
    (context1 context2 : JsValue) (log : list Request) :
  truthy context1 = truthy context2 ->
  generateAnswer toLocaleDateString octokit info question context1 log
  = generateAnswer toLocaleDateString octokit info question context2 log.
Proof.
  intros Hc.
  pose proof (suggestionsFor_context info question _ _ Hc) as Hs.
  destruct (analyzeQuestionType_cases question) as [H | [H | H]].
  - rewrite !(generateAnswer_technical _ _ _ _ _ _ H), Hs. reflexivity.
  - rewrite !(generateAnswer_statistics _ _ _ _ _ _ H), Hs. reflexivity.
  - rewrite !(generateAnswer_general _ _ _ _ _ _ H), Hs. reflexivity.
Qed.

(** X13. The context of a request acts as a switch only: two requests for
    the same owner, repository and question whose contexts are both truthy,
    or both falsy, settle in the same way, with the same answer and the
    same requests. The text of the context is never read. *)
Theorem answer_repository_question_context_is_a_switch
    (toLocaleDateString : string -> string) (newOctokit : JsValue -> Octokit)
    (o r q : string) (context1 context2 : JsValue)
    (userSettings : UserSettings) (log : list Request) :
  truthy context1 = truthy context2 ->
  answer_repository_question toLocaleDateString newOctokit
    {| owner := o; repo := r; question := q; context := context1 |}
    userSettings log
  = answer_repository_question toLocaleDateString newOctokit
      {| owner := o; repo := r; question := q; context := context2 |}
      userSettings log.
Proof.
  intros Hc. unfold answer_repository_question.
  destruct (truthy (githubToken userSettings)); cbn [negb]; [|reflexivity].
  unfold tryCatch, bind at 1 3. cbn [owner repo].
  destruct (getRepositoryInfo _ o r log) as [[info|e] log1]; [|reflexivity].
  unfold bind. cbn [question context].
  rewrite (generateAnswer_context _ _ _ _ context1 context2 _ Hc).
  reflexivity.
Qed.

Lemma answer_repository_question_context_is_a_switch_witness :
  answer_repository_question Sample.isoDate Sample.healthy
    {| owner := "octo"; repo := "tool"; question := "What is it about?";
       context := JsStr "for a newcomer" |} Sample.settings []
  = answer_repository_question Sample.isoDate Sample.healthy
      {| owner := "octo"; repo := "tool"; question := "What is it about?";
         context := JsStr "for a maintainer" |} Sample.settings [].
Proof.
  exact (answer_repository_question_context_is_a_switch Sample.isoDate
           Sample.healthy "octo" "tool" "What is it about?"
           (JsStr "for a newcomer") (JsStr "for a maintainer")
           Sample.settings [] eq_refl).
Defined.

(** X14. With a truthy context, the suggestions of the answer are the
    advisories that hold for the fetched repository, in their fixed order,
    whatever the question and its type. *)
Theorem answer_repository_question_suggestions
    (toLocaleDateString : string -> string) (newOctokit : JsValue -> Octokit)
    (params : Params) (userSettings : UserSettings) (log log' : list Request)
    (a : Answer) :
  truthy (context params) = true ->
  answer_repository_question toLocaleDateString newOctokit params userSettings
    log = (Fulfilled a, log') ->
  exists info log1,
    getRepositoryInfo (newOctokit (githubToken userSettings))
      (owner params) (repo params) log = (Fulfilled info, log1)
    /\ suggestions a = map snd (filter fst (advisories info)).
Proof.
  intros Hc Hrun.
  apply answer_repository_question_fulfilled in Hrun
    as [_ [info [log1 [Hfetch Hgen]]]].
  exists info, log1. split; [exact Hfetch|].
  rewrite (generateAnswer_suggestions _ _ _ _ _ _ _ _ Hgen).
  unfold suggestionsFor. rewrite Hc. apply generateSuggestions_advisories.
Qed.

Lemma answer_repository_question_suggestions_witness :
  exists info log1,
    getRepositoryInfo (Sample.healthy (JsStr "ghp_token")) "octo" "tool" []
    = (Fulfilled info, log1)
    /\ [ "Consider adding a homepage or enabling GitHub Pages";
         "Add repository topics to improve discoverability" ]
       = map snd (filter fst (advisories info)).
Proof.
  exact (answer_repository_question_suggestions Sample.isoDate Sample.healthy
           {| owner := "octo"; repo := "tool";
              question := "Count the stars"; context := JsStr "review" |}
           Sample.settings []
           (fetchRequests "octo" "tool")
           {| text := "The repository has 42 stars and 7 forks";
              relatedFiles := [];
              suggestions :=
                [ "Consider adding a homepage or enabling GitHub Pages";
                  "Add repository topics to improve discoverability" ] |}
           eq_refl eq_refl).
Defined.

(** X15. Only the snapshot depends on the host's date format: a statistics
    answer to a question that contains "language", "popular", "stars" or
    "issue" is the same under every formatting of dates, and the snapshot
    shows both dates as the host formats them. *)
Theorem generateStatisticsAnswer_locale
    (format1 format2 : string -> string) (info : RepositoryInfo)
    (question : string) :
  (occursIn "language" question \/ occursIn "popular" question
   \/ occursIn "stars" question \/ occursIn "issue" question ->
   generateStatisticsAnswer format1 info question
   = generateStatisticsAnswer format2 info question)
  /\ (~ (occursIn "language" question \/ occursIn "popular" question
         \/ occursIn "stars" question \/ occursIn "issue" question) ->
      occursIn ("- Created: " ++ format1 (created_at info) ++ newline)
        (generateStatisticsAnswer format1 info question)
      /\ exists head,
           generateStatisticsAnswer format1 info question
           = head ++ "- Last Updated: " ++ format1 (updated_at info)).
Proof.
  unfold generateStatisticsAnswer.
  cbn [Stats.languages Stats.stars Stats.forks Stats.issues Stats.size
       Stats.created Stats.updated].
  pose proof (includes_iff question "language") as Hl.
  pose proof (includes_iff question "popular") as Hp.
  pose proof (includes_iff question "stars") as Hs.
  pose proof (includes_iff question "issue") as Hi.
  destruct (includes question "language");
    [split; [reflexivity | intros H; exfalso; apply H; left; tauto]|].
  destruct (includes question "popular");
    [split; [reflexivity | intros H; exfalso; apply H; right; left; tauto]|].
  destruct (includes question "stars");
    [split; [reflexivity
            | intros H; exfalso; apply H; right; right; left; tauto]|].
  destruct (includes question "issue");
    [split; [reflexivity
            | intros H; exfalso; apply H; right; right; right; tauto]|].
  cbn [orb]. split.
  - intros [H | [H | [H | H]]];
      [apply Hl in H | apply Hp in H | apply Hs in H | apply Hi in H];
      discriminate H.
  - intros _. split.
    + eexists. exists ("- Last Updated: " ++ format1 (updated_at info)).
      rewrite <- !append_assoc. reflexivity.
    + eexists. rewrite <- !append_assoc. reflexivity.
Qed.

Lemma generateStatisticsAnswer_locale_witness :
  generateStatisticsAnswer Sample.isoDate Sample.info "Count the open issues"
  = generateStatisticsAnswer (fun _ => "1/1/2020") Sample.info
      "Count the open issues".
Proof.
  refine (proj1 (generateStatisticsAnswer_locale Sample.isoDate
                   (fun _ => "1/1/2020") Sample.info
                   "Count the open issues") _).
  right; right; right. apply includes_iff. reflexivity.
Defined.

(* ------------------------------------------------------------------ *)
(** ** Related files and the text that lists them *)

Lemma append_empty_r (s : string) : s ++ "" = s.
Proof. induction s as [|c s IH]; simpl; [reflexivity | rewrite IH; reflexivity]. Qed.

Lemma occursIn_refl (s : string) : occursIn s s.
Proof. exists "", "". simpl. rewrite append_empty_r. reflexivity. Qed.

Lemma occursIn_suffix (pre s : string) : occursIn s (pre ++ s).
Proof. exists pre, "". rewrite append_empty_r. reflexivity. Qed.

Lemma occursIn_join (sep : string) (xs : list string) (x : string) :
  In x xs -> occursIn x (join sep xs).
Proof.
  induction xs as [|a rest IH]; [intros []|].
  intros Hin. destruct rest as [|b rest].
  - destruct Hin as [<- | []]. apply occursIn_refl.
  - change (join sep (a :: b :: rest)) with (a ++ sep ++ join sep (b :: rest)).
    destruct Hin as [<- | Hin].
    + exists "", (sep ++ join sep (b :: rest)). reflexivity.
    + apply (occursIn_trans _ _ _ (IH Hin)).
      rewrite <- append_assoc. apply occursIn_suffix.
Qed.

(** X16. Every related file of an answer is listed in its text, on a line
    of the form "- path (url)": the text and the related files of an
    answer never disagree. *)
Theorem generateAnswer_lists_related_files
    (toLocaleDateString : string -> string) (octokit : Octokit)
    (info : RepositoryInfo) (question : string) (context : JsValue)
    (log log' : list Request) (a : Answer) (f : File) :
  generateAnswer toLocaleDateString octokit info question context log
  = (Fulfilled a, log') ->
  In f (relatedFiles a) ->
  occursIn ("- " ++ path f ++ " (" ++ url f ++ ")") (text a).
Proof.
  destruct (analyzeQuestionType_cases question) as [H | [H | H]].
  - rewrite (generateAnswer_technical _ _ _ _ _ _ H), findTechnicalAnswer_run.
    destruct (search_code octokit (searchQuery info question) 5)
      as [results|e]; [|discriminate].
    cbn zeta. rewrite technical_text_cases.
    intros E; injection E as <- _. cbn [text relatedFiles].
    destruct (map toFile (Upstream.items results)) as [|f0 fs] eqn:Efiles;
      [intros []|].
    rewrite <- Efiles. intros Hin. unfold foundText.
    apply (occursIn_trans _ (join newline
                               (map fileLine
                                  (map toFile (Upstream.items results))))).
    + apply occursIn_join. apply (in_map fileLine) in Hin. exact Hin.
    + rewrite <- !append_assoc. apply occursIn_suffix.
  - rewrite (generateAnswer_statistics _ _ _ _ _ _ H).
    intros E; injection E as <- _. intros [].
  - rewrite (generateAnswer_general _ _ _ _ _ _ H).
    intros E; injection E as <- _. intros [].
Qed.

Lemma generateAnswer_lists_related_files_witness :
  occursIn "- cmd/main.go (https://example.org/octo/tool/cmd/main.go)"
    (foundText [toFile Sample.hit]).
Proof.
  exact (generateAnswer_lists_related_files Sample.isoDate
           (Sample.healthy JsNull) Sample.info "How is the parser implemented?" JsUndefined
           [] [SearchCode "How is the parser implemented  repo:octo/tool" 5]
           {| text := foundText [toFile Sample.hit];
              relatedFiles := [toFile Sample.hit]; suggestions := [] |}
           (toFile Sample.hit) eq_refl (or_introl eq_refl)).
Defined.
